(** * Bass-line transcriber: orchestration layer

    A shallow embedding of [ablt/bass_line_transcriber/transcriber_class.py]
    (class [BassLineTranscriber]) and of
    [bassline_extractor/bassline_extractor.py]
    ([extract_single_bassline], [exception_logger]).

    Python objects are records, attributes that are assigned after
    construction are [option] fields, exceptions are values carrying the
    method resolution order of their class, and calls that reach the outside
    world (printing, the pitch estimator, the MIDI writer, the file system)
    are recorded in a trace of events.  Floating point arithmetic is modelled
    by exact rational arithmetic on [Q]; [int(x)] is truncation towards
    zero. *)

From Stdlib Require Import Ascii String QArith Qabs Qround.
From stdpp Require Import base decidable option list strings pretty gmap.

Local Open Scope string_scope.
Local Open Scope Z_scope.
Local Open Scope list_scope.

(** ** Python exceptions *)

Module Py.

(** An exception value: the names of the classes in the MRO of its class
    (most specific first) and its message.  [isinstance e C] is membership of
    [C] in the MRO, which is how an [except C] clause selects. *)
Record exn : Type := mk_exn { exn_mro : list string; exn_msg : string }.

Definition isinstance (e : exn) (C : string) : bool :=
  bool_decide (C ∈ exn_mro e).

Definition exn_class (e : exn) : string := default "" (head (exn_mro e)).

Definition AssertionError (msg : string) : exn :=
  mk_exn ["AssertionError"; "Exception"; "BaseException"] msg.
Definition AttributeError (msg : string) : exn :=
  mk_exn ["AttributeError"; "Exception"; "BaseException"] msg.
Definition ValueError (msg : string) : exn :=
  mk_exn ["ValueError"; "Exception"; "BaseException"] msg.
Definition ZeroDivisionError (msg : string) : exn :=
  mk_exn ["ZeroDivisionError"; "ArithmeticError"; "Exception"; "BaseException"] msg.
Definition KeyError (msg : string) : exn :=
  mk_exn ["KeyError"; "LookupError"; "Exception"; "BaseException"] msg.
Definition FileNotFoundError (msg : string) : exn :=
  mk_exn ["FileNotFoundError"; "OSError"; "Exception"; "BaseException"] msg.
Definition RuntimeError (msg : string) : exn :=
  mk_exn ["RuntimeError"; "Exception"; "BaseException"] msg.
Definition KeyboardInterrupt : exn :=
  mk_exn ["KeyboardInterrupt"; "BaseException"] "".
Definition SystemExit : exn :=
  mk_exn ["SystemExit"; "BaseException"] "".

(** The outcome of a call: a value, or a raised exception. *)
Inductive outcome (A : Type) : Type :=
| Return (a : A)
| Raise (e : exn).
Arguments Return {A} a.
Arguments Raise {A} e.

(** A computation with effects of type [E]: the events it emitted, in
    order, and how it ended.  After an exception nothing more is emitted. *)
Definition prog (E A : Type) : Type := list E * outcome A.

Definition ret {E A} (a : A) : prog E A := ([], Return a).
Definition raise {E A} (e : exn) : prog E A := ([], Raise e).
Definition emit {E} (ev : E) : prog E unit := ([ev], Return tt).
Definition lift {E A} (o : outcome A) : prog E A := ([], o).

Definition bind {E A B} (c : prog E A) (k : A -> prog E B) : prog E B :=
  match c with
  | (t, Return a) => let '(t', r) := k a in (t ++ t', r)
  | (t, Raise e) => (t, Raise e)
  end.

Definition trace {E A} (c : prog E A) : list E := fst c.
Definition result {E A} (c : prog E A) : outcome A := snd c.

(** [for x in xs: body x] *)
Fixpoint for_each {E A} (xs : list A) (body : A -> prog E unit) : prog E unit :=
  match xs with
  | [] => ret tt
  | x :: xs' => bind (body x) (fun _ => for_each xs' body)
  end.

(** [int(x)] on a float: truncation towards zero. *)
Definition int_of (x : Q) : Z := Z.quot (Qnum x) (Zpos (Qden x)).

(** [a / b] with a float operand: raises on a zero divisor. *)
Definition truediv (a b : Q) : outcome Q :=
  if Qeq_bool b 0%Q then Raise (ZeroDivisionError "float division by zero")
  else Return (a / b)%Q.

(** [a / b] on two [int]s: the quotient as a float. *)
Definition truediv_int (a b : Z) : outcome Q :=
  if Z.eqb b 0 then Raise (ZeroDivisionError "division by zero")
  else Return (inject_Z a / inject_Z b)%Q.

(** [str(n)] for an [int]. *)
Definition str (n : Z) : string := pretty n.

(** [s.split(sep)] for a one-character separator. *)
Fixpoint split (sep : Ascii.ascii) (s : string) : list string :=
  match s with
  | EmptyString => [EmptyString]
  | String c s' =>
      if Ascii.eqb c sep then EmptyString :: split sep s'
      else match split sep s' with
           | [] => [String c EmptyString]
           | w :: ws => String c w :: ws
           end
  end.

Definition startswith_slash (s : string) : bool :=
  match s with String c _ => Ascii.eqb c "/"%char | _ => false end.

Fixpoint endswith_slash (s : string) : bool :=
  match s with
  | EmptyString => false
  | String c EmptyString => Ascii.eqb c "/"%char
  | String _ s' => endswith_slash s'
  end.

(** [os.path.join(a, b)] (POSIX). *)
Definition os_path_join (a b : string) : string :=
  if startswith_slash b then b
  else if (bool_decide (a = "") || endswith_slash a)%bool then a +:+ b
  else a +:+ "/" +:+ b.

End Py.

Notation "'let*' x ':=' c 'in' k" := (Py.bind c (fun x => k))
  (at level 10, x name, c at level 100, k at level 200).
Notation "'do*' c 'in' k" := (Py.bind c (fun _ => k))
  (at level 10, c at level 100, k at level 200).

(** ** The transcriber class *)

Module Transcriber.
Import Py.

(** Module-level constants of [transcriber_class.py]. *)
Definition OUTPUT_DIR : string := "data/outputs/".
Definition F_MIN : Q := 32.7%Q.
Definition T_MAX : Q := (1 / F_MIN)%Q.
Definition FS : Z := 44100.
Definition FRAME_LEN : Z := int_of (T_MAX * inject_Z FS)%Q.

(** The [M] argument of the constructor: an [int], or a collection of
    decimation rates. *)
Inductive M_arg : Type :=
| M_int (m : Z)
| M_seq (ms : list Z).

Section Collaborators.

(** Data of the collaborators, opaque to the class. *)
Variables scale_table scale beat_positions positions audio : Type.
Variables track qtrack freq_row midi_seq midi_array : Type.

(** Standard library calls. *)
Variable os_path_basename : string -> string.
Variable os_path_splitext : string -> string * string.

(** Functions imported from [..utilities], [..MIDI_output] and
    [.transcription].  Those that read files or look names up may raise;
    the array transformations are pure functions. *)
Variable read_scale_frequencies : outcome scale_table.
Variable get_track_scale : string -> string -> scale_table -> outcome scale.
Variable get_chorus_beat_positions : string -> outcome beat_positions.
Variable get_quarter_beat_positions : beat_positions -> positions.
Variable np_load : string -> outcome audio.
Variable pYIN_F0 : audio -> Q -> Z -> Z -> Q -> outcome (track * track).
Variable adaptive_voiced_region_quantization :
  track -> scale -> positions -> bool -> Z -> Q -> qtrack.
Variable uniform_voiced_region_quantization : track -> scale -> Q -> qtrack.
Variable getitem1 : qtrack -> freq_row.
Variable frequency_to_midi_sequence : freq_row -> Z -> midi_seq.
Variable midi_sequence_to_midi_array : midi_seq -> Z -> Z -> Z -> midi_array.

(** Calls that reach the outside world. *)
Inductive event : Type :=
| Print (s : string)
| Call_pYIN_F0 (beat_duration : Q) (hop_factor N_bars : Z) (threshold : Q)
| Makedirs (path : string)
| Create_MIDI_file (arr : midi_array) (bpm : Q) (title dir : string).

(** The attributes of a [BassLineTranscriber].  [F0_estimate],
    [pitch_track] and [pitch_track_quantized] do not exist until the method
    that assigns them has run. *)
Record BassLineTranscriber : Type := mk {
  title : string;
  fs : Z;
  key : string;
  scale_type : string;
  track_scale : scale;
  M : list Z;
  N_bars : Z;
  BPM : Q;
  beat_duration : Q;
  frame_factor : Z;
  output_dir : string;
  F0_estimate_dir : string;
  pitch_track_dir : string;
  quantized_pitch_track_dir : string;
  midi_dir : string;
  quarter_beat_positions : positions;
  bass_line : audio;
  silence_code : Z;
  F0_estimate : option track;
  pitch_track : option track;
  pitch_track_quantized : option qtrack
}.

(** [self.key, self.scale_type = key.split(' ')] *)
Definition unpack2 (parts : list string) : outcome (string * string) :=
  match parts with
  | [a; b] => Return (a, b)
  | _ :: _ :: _ :: _ => Raise (ValueError "too many values to unpack (expected 2)")
  | _ => Raise (ValueError "not enough values to unpack (expected 2)")
  end.

(** [[M] if isinstance(M, int) else M] *)
Definition decimation_rates (m : M_arg) : list Z :=
  match m with
  | M_int m => [m]
  | M_seq ms => ms
  end.

(** [int((beat_duration / hop_factor)*FS)] *)
Definition F0_sample_length_of (beat_duration : Q) (hop_factor : Z) : outcome Z :=
  match truediv beat_duration (inject_Z hop_factor) with
  | Return d => Return (int_of (d * inject_Z FS)%Q)
  | Raise e => Raise e
  end.

(** [int(FRAME_LEN / F0_sample_length)] *)
Definition frame_factor_of (F0_sample_length : Z) : outcome Z :=
  match truediv_int FRAME_LEN F0_sample_length with
  | Return d => Return (int_of d)
  | Raise e => Raise e
  end.

(** [BassLineTranscriber.__init__]; [bpm] is the value of [float(BPM)]. *)
Definition init (bass_line_path : string) (bpm : Q) (key_arg : string)
    (M_ : M_arg) (N_bars_ hop_factor silence_code_ : Z)
    : prog event BassLineTranscriber :=
  let title_ := fst (os_path_splitext (os_path_basename bass_line_path)) in
  let* ks := lift (unpack2 (split " " key_arg)) in
  let* scale_frequencies := lift read_scale_frequencies in
  let* track_scale_ := lift (get_track_scale (fst ks) (snd ks) scale_frequencies) in
  let M_list := decimation_rates M_ in
  let* beat_duration_ := lift (truediv 60 bpm) in
  let* F0_sample_length := lift (F0_sample_length_of beat_duration_ hop_factor) in
  let* frame_factor_ := lift (frame_factor_of F0_sample_length) in
  do* emit (Print ("frame length: " +:+ str FRAME_LEN)) in
  do* emit (Print ("F0_sample_length: " +:+ str F0_sample_length)) in
  do* emit (Print ("frame factor: " +:+ str frame_factor_)) in
  let output_dir_ := os_path_join OUTPUT_DIR title_ in
  let* chorus_beat_positions := lift (get_chorus_beat_positions output_dir_) in
  let* bass_line_ := lift (np_load bass_line_path) in
  ret {| title := title_;
         fs := FS;
         key := fst ks;
         scale_type := snd ks;
         track_scale := track_scale_;
         M := M_list;
         N_bars := N_bars_;
         BPM := bpm;
         beat_duration := beat_duration_;
         frame_factor := frame_factor_;
         output_dir := output_dir_;
         F0_estimate_dir := os_path_join output_dir_ "F0_estimate";
         pitch_track_dir := os_path_join output_dir_ "pitch_track";
         quantized_pitch_track_dir := os_path_join output_dir_ "quantized_pitch_track";
         midi_dir := os_path_join output_dir_ "midi";
         quarter_beat_positions := get_quarter_beat_positions chorus_beat_positions;
         bass_line := bass_line_;
         silence_code := silence_code_;
         F0_estimate := None;
         pitch_track := None;
         pitch_track_quantized := None |}.

(** Reading an attribute that has not been assigned yet. *)
Definition getattr {A} (name : string) (o : option A) : outcome A :=
  match o with
  | Some a => Return a
  | None => Raise (AttributeError
      ("'BassLineTranscriber' object has no attribute '" +:+ name +:+ "'"))
  end.

Definition set_pitch_tracks (self : BassLineTranscriber) (est pt : track) :=
  {| title := title self; fs := fs self; key := key self;
     scale_type := scale_type self; track_scale := track_scale self;
     M := M self; N_bars := N_bars self; BPM := BPM self;
     beat_duration := beat_duration self; frame_factor := frame_factor self;
     output_dir := output_dir self; F0_estimate_dir := F0_estimate_dir self;
     pitch_track_dir := pitch_track_dir self;
     quantized_pitch_track_dir := quantized_pitch_track_dir self;
     midi_dir := midi_dir self;
     quarter_beat_positions := quarter_beat_positions self;
     bass_line := bass_line self; silence_code := silence_code self;
     F0_estimate := Some est;
     pitch_track := Some pt;
     pitch_track_quantized := pitch_track_quantized self |}.

Definition set_pitch_track_quantized (self : BassLineTranscriber) (q : qtrack) :=
  {| title := title self; fs := fs self; key := key self;
     scale_type := scale_type self; track_scale := track_scale self;
     M := M self; N_bars := N_bars self; BPM := BPM self;
     beat_duration := beat_duration self; frame_factor := frame_factor self;
     output_dir := output_dir self; F0_estimate_dir := F0_estimate_dir self;
     pitch_track_dir := pitch_track_dir self;
     quantized_pitch_track_dir := quantized_pitch_track_dir self;
     midi_dir := midi_dir self;
     quarter_beat_positions := quarter_beat_positions self;
     bass_line := bass_line self; silence_code := silence_code self;
     F0_estimate := F0_estimate self;
     pitch_track := pitch_track self;
     pitch_track_quantized := Some q |}.

(** [extract_pitch_track]: the estimator is called with [hop_factor=32]. *)
Definition extract_pitch_track (self : BassLineTranscriber) (pYIN_threshold : Q)
    : prog event BassLineTranscriber :=
  do* emit (Print "Starting the transcription process.") in
  do* emit (Call_pYIN_F0 (beat_duration self) 32 (N_bars self) pYIN_threshold) in
  let* r := lift (pYIN_F0 (bass_line self) (beat_duration self) 32
                          (N_bars self) pYIN_threshold) in
  ret (set_pitch_tracks self (fst r) (snd r)).

(** [quantize_pitch_track] *)
Definition quantize_pitch_track (self : BassLineTranscriber)
    (filter_unk : bool) (epsilon : Q) (quantization_scheme : string)
    : prog event BassLineTranscriber :=
  if negb (bool_decide (quantization_scheme ∈ ["adaptive"; "uniform"])) then
    raise (AssertionError "Choose between adaptive and uniform quantization!")
  else if bool_decide (quantization_scheme = "adaptive") then
    let* pt := lift (getattr "pitch_track" (pitch_track self)) in
    ret (set_pitch_track_quantized self
           (adaptive_voiced_region_quantization pt (track_scale self)
              (quarter_beat_positions self) filter_unk
              (frame_factor self) epsilon))
  else
    let* pt := lift (getattr "pitch_track" (pitch_track self)) in
    ret (set_pitch_track_quantized self
           (uniform_voiced_region_quantization pt (track_scale self) epsilon)).

(** [create_bass_line_MIDI_file] *)
Definition create_bass_line_MIDI_file (self : BassLineTranscriber)
    : prog event unit :=
  do* emit (Print "Creating the MIDI file.") in
  let* q := lift (getattr "pitch_track_quantized" (pitch_track_quantized self)) in
  let midi_sequence := frequency_to_midi_sequence (getitem1 q) (silence_code self) in
  for_each (M self) (fun m =>
    let bass_line_midi_array :=
      midi_sequence_to_midi_array midi_sequence m (frame_factor self)
                                  (silence_code self) in
    let midi_dir_ := os_path_join (midi_dir self) (str m) in
    do* emit (Makedirs midi_dir_) in
    emit (Create_MIDI_file bass_line_midi_array (BPM self) (title self) midi_dir_)).

(** The object after a method call: an exception leaves it as it was, since
    every method assigns its attributes in its last statement. *)
Definition object_after (self : BassLineTranscriber)
    (c : prog event BassLineTranscriber) : BassLineTranscriber :=
  match result c with
  | Return self' => self'
  | Raise _ => self
  end.

(** The object with another list of decimation rates. *)
Definition with_M (self : BassLineTranscriber) (rates : list Z) :=
  {| title := title self; fs := fs self; key := key self;
     scale_type := scale_type self; track_scale := track_scale self;
     M := rates; N_bars := N_bars self; BPM := BPM self;
     beat_duration := beat_duration self; frame_factor := frame_factor self;
     output_dir := output_dir self; F0_estimate_dir := F0_estimate_dir self;
     pitch_track_dir := pitch_track_dir self;
     quantized_pitch_track_dir := quantized_pitch_track_dir self;
     midi_dir := midi_dir self;
     quarter_beat_positions := quarter_beat_positions self;
     bass_line := bass_line self; silence_code := silence_code self;
     F0_estimate := F0_estimate self;
     pitch_track := pitch_track self;
     pitch_track_quantized := pitch_track_quantized self |}.

(** What a run of [quantize_pitch_track] produced: the quantized pitch track
    it stored, or the exception it raised. *)
Definition quantized_of (c : prog event BassLineTranscriber) : outcome qtrack :=
  match result c with
  | Return self' =>
      match pitch_track_quantized self' with
      | Some q => Return q
      | None => Raise (AttributeError "pitch_track_quantized")
      end
  | Raise e => Raise e
  end.

(** The events of one iteration of the loop of [create_bass_line_MIDI_file]. *)
Definition export_events (self : BassLineTranscriber) (seq : midi_seq) (m : Z)
    : list event :=
  [Makedirs (os_path_join (midi_dir self) (str m));
   Create_MIDI_file
     (midi_sequence_to_midi_array seq m (frame_factor self) (silence_code self))
     (BPM self) (title self) (os_path_join (midi_dir self) (str m))].

Definition is_Create_MIDI_file (ev : event) : bool :=
  match ev with Create_MIDI_file _ _ _ _ => true | _ => false end.

End Collaborators.

Arguments Print {midi_array} s.
Arguments Call_pYIN_F0 {midi_array} beat_duration hop_factor N_bars threshold.
Arguments Makedirs {midi_array} path.
Arguments Create_MIDI_file {midi_array} arr bpm title dir.
Arguments title {scale positions audio track qtrack} _.
Arguments fs {scale positions audio track qtrack} _.
Arguments key {scale positions audio track qtrack} _.
Arguments scale_type {scale positions audio track qtrack} _.
Arguments track_scale {scale positions audio track qtrack} _.
Arguments M {scale positions audio track qtrack} _.
Arguments N_bars {scale positions audio track qtrack} _.
Arguments BPM {scale positions audio track qtrack} _.
Arguments beat_duration {scale positions audio track qtrack} _.
Arguments frame_factor {scale positions audio track qtrack} _.
Arguments output_dir {scale positions audio track qtrack} _.
Arguments midi_dir {scale positions audio track qtrack} _.
Arguments quarter_beat_positions {scale positions audio track qtrack} _.
Arguments bass_line {scale positions audio track qtrack} _.
Arguments silence_code {scale positions audio track qtrack} _.
Arguments F0_estimate {scale positions audio track qtrack} _.
Arguments pitch_track {scale positions audio track qtrack} _.
Arguments pitch_track_quantized {scale positions audio track qtrack} _.
Arguments set_pitch_tracks {scale positions audio track qtrack} self est pt.
Arguments set_pitch_track_quantized {scale positions audio track qtrack} self q.
Arguments with_M {scale positions audio track qtrack} self rates.
Arguments object_after {scale positions audio track qtrack midi_array} self c.
Arguments quantized_of {scale positions audio track qtrack midi_array} c.
Arguments is_Create_MIDI_file {midi_array} ev.
Arguments export_events {scale positions audio track qtrack midi_seq midi_array}
  midi_sequence_to_midi_array self seq m.

(** The spec's reading of the threshold: the number of F0 samples in a
    quarter-beat, the duration of a quarter of a beat over the duration
    [beat_duration / hop_factor] of one F0 sample. *)
Definition spec_F0_samples_per_quarter_beat (bpm : Q) (hop_factor : Z) : Q :=
  ((60 / bpm / 4) / (60 / bpm / inject_Z hop_factor))%Q.

End Transcriber.

(** ** The region quantizer of [.transcription] *)

Module RegionQuantizer.

(** Modelled from the spec: the module [.transcription], which holds
    [adaptive_voiced_region_quantization] and
    [uniform_voiced_region_quantization], is missing.  An F0 Track is an
    ordered sequence of (frequency_hz, confidence, voiced) samples. *)
Record sample : Type := mk_sample {
  frequency_hz : Q;
  confidence : Q;
  voiced : bool
}.

(** Modelled from the spec: the missing quantized pitch track, an ordered
    sequence of (frequency_hz_or_silence, scale_degree_or_unknown_marker)
    pairs, one entry per original sample index. *)
Inductive pitch : Type := Silence | Hz (f : Q).
Inductive marker : Type := Degree (i : nat) | Unknown.
Definition entry : Type := pitch * marker.

Definition silent : entry := (Silence, Unknown).

Definition Qabs_diff (a b : Q) : Q := Qabs (a - b).

(** Modelled from the spec: the missing Scale Model query
    [nearest_scale_pitch(freq) -> (scale_freq, degree_index, deviation)]
    over the ordered scale frequencies; a later member replaces the best one
    only when strictly closer, so ties go to the lower index. *)
Fixpoint nearest_from (i : nat) (best : Q * nat * Q) (freq : Q) (scale : list Q)
    : Q * nat * Q :=
  match scale with
  | [] => best
  | f :: rest =>
      let d := Qabs_diff freq f in
      if Qlt_le_dec d (snd best) then nearest_from (S i) (f, i, d) freq rest
      else nearest_from (S i) best freq rest
  end.

Definition nearest_scale_pitch (scale : list Q) (freq : Q) : option (Q * nat * Q) :=
  match scale with
  | [] => None
  | f :: rest => Some (nearest_from 1 (f, 0%nat, Qabs_diff freq f) freq rest)
  end.

(** Modelled from the spec: the missing Voiced-Region Segmenter,
    [segment(voicing_flags)], a single linear scan that opens a region at a
    false-to-true transition and closes it at the next true-to-false
    transition or at the end of the track. *)
Fixpoint segment_from (i : nat) (start : option nat) (flags : list bool)
    : list (nat * nat) :=
  match flags with
  | [] => match start with Some s => [(s, i)] | None => [] end
  | true :: rest => segment_from (S i) (Some (default i start)) rest
  | false :: rest =>
      match start with
      | Some s => (s, i) :: segment_from (S i) None rest
      | None => segment_from (S i) None rest
      end
  end.

Definition segment (flags : list bool) : list (nat * nat) :=
  segment_from 0 None flags.

Fixpoint insert_sorted (x : Q) (l : list Q) : list Q :=
  match l with
  | [] => [x]
  | y :: l' => if Qle_bool x y then x :: l else y :: insert_sorted x l'
  end.

Definition sort (l : list Q) : list Q := foldr insert_sorted [] l.

(** Modelled from the spec: the representative frequency of a region, the
    median of its frequency samples. *)
Definition median (l : list Q) : Q :=
  let s := sort l in
  let n := length s in
  if Nat.even n
  then ((nth (n / 2 - 1) s 0 + nth (n / 2) s 0) / 2)%Q
  else nth (n / 2) s 0%Q.

(** Assigning one value to the slice [out[start:stop]]. *)
Definition fill {A} (start stop : nat) (v : A) (out : list A) : list A :=
  imap (fun i x => if (start <=? i)%nat && (i <? stop)%nat then v else x) out.

(** Modelled from the spec: what the missing adaptive strategy writes for
    one voiced region: silence when the region is shorter than
    [length_threshold]; otherwise the median snapped to the scale; when the
    deviation exceeds [epsilon], silence if [filter_unk] and the raw
    frequency tagged unknown if not. *)
Definition region_entry (scale : list Q) (filter_unk : bool)
    (length_threshold : Z) (epsilon : Q) (freqs : list Q) (r : nat * nat)
    : entry :=
  let '(start, stop) := r in
  if Z.of_nat (stop - start) <? length_threshold then silent
  else
    let rep := median (take (stop - start) (drop start freqs)) in
    match nearest_scale_pitch scale rep with
    | Some (scale_freq, degree, deviation) =>
        if Qle_bool deviation epsilon then (Hz scale_freq, Degree degree)
        else if filter_unk then silent else (Hz rep, Unknown)
    | None => if filter_unk then silent else (Hz rep, Unknown)
    end.

(** Modelled from the spec: the missing
    [adaptive_voiced_region_quantization].  Unvoiced samples map to silence;
    every voiced region is overwritten with its entry. *)
Definition adaptive_voiced_region_quantization (pitch_track : list sample)
    (scale : list Q) (quarter_beat_positions : list Z) (filter_unk : bool)
    (length_threshold : Z) (epsilon : Q) : list entry :=
  let freqs := map frequency_hz pitch_track in
  fold_left
    (fun out r =>
       fill (fst r) (snd r)
            (region_entry scale filter_unk length_threshold epsilon freqs r) out)
    (segment (map voiced pitch_track))
    (replicate (length pitch_track) silent).

(** Rounding to the nearest integer, halves to even. *)
Definition round_half_even (x : Q) : Z :=
  let fl := Qfloor x in
  match ((x - inject_Z fl) ?= 1 # 2)%Q with
  | Lt => fl
  | Gt => fl + 1
  | Eq => if Z.even fl then fl else fl + 1
  end.

(** Modelled from the spec: the missing
    [uniform_voiced_region_quantization]: every sample, voiced or not, is
    snapped to the nearest multiple of [epsilon]. *)
Definition snap (epsilon f : Q) : Q :=
  (inject_Z (round_half_even (f / epsilon)) * epsilon)%Q.

Definition uniform_voiced_region_quantization (pitch_track : list sample)
    (scale : list Q) (epsilon : Q) : list entry :=
  map (fun s => (Hz (snap epsilon (frequency_hz s)), Unknown)) pitch_track.

End RegionQuantizer.

(** ** The batch extractor *)

Module Extractor.
Import Py.

(** The part of the outside world the extractor touches: what was printed,
    the directories that exist and the contents of the files. *)
Record world : Type := mk_world {
  stdout : list string;
  dirs : gset string;
  files : gmap string string
}.

(** A command: runs in a world, ends with a value or an exception, and
    leaves a world behind in both cases. *)
Definition cmd (A : Type) : Type := world -> outcome A * world.

Definition cret {A} (a : A) : cmd A := fun w => (Return a, w).
Definition craise {A} (e : exn) : cmd A := fun w => (Raise e, w).
Definition cbind {A B} (c : cmd A) (k : A -> cmd B) : cmd B :=
  fun w => match c w with
           | (Return a, w') => k a w'
           | (Raise e, w') => (Raise e, w')
           end.
Definition clift {A} (o : outcome A) : cmd A := fun w => (o, w).

(** [try: c except ...: handler] *)
Definition try_except {A} (c : cmd A) (handler : exn -> cmd A) : cmd A :=
  fun w => match c w with
           | (Return a, w') => (Return a, w')
           | (Raise e, w') => handler e w'
           end.

Definition print (s : string) : cmd unit :=
  fun w => (Return tt, mk_world (stdout w ++ [s]) (dirs w) (files w)).

Definition nl : string := String "010"%char EmptyString.

Fixpoint str_mul (s : string) (n : nat) : string :=
  match n with
  | O => ""
  | S n' => s +:+ str_mul s n'
  end.

(** [os.path.dirname] (POSIX): everything before the last slash, without
    trailing slashes unless it consists of slashes only. *)
Fixpoint rstrip_slashes_rev (r : list ascii) : list ascii :=
  match r with
  | c :: r' => if Ascii.eqb c "/"%char then rstrip_slashes_rev r' else r
  | [] => []
  end.

Fixpoint drop_to_slash_rev (r : list ascii) : list ascii :=
  match r with
  | c :: r' => if Ascii.eqb c "/"%char then r else drop_to_slash_rev r'
  | [] => []
  end.

Definition os_path_dirname (p : string) : string :=
  let head := drop_to_slash_rev (rev (list_ascii_of_string p)) in
  match rstrip_slashes_rev head with
  | [] => string_of_list_ascii (rev head)
  | stripped => string_of_list_ascii (rev stripped)
  end.

(** [with open(path, 'a') as outfile:] followed by writes that amount to
    [text]: the file is created when missing; its directory must exist. *)
Definition append_file (path text : string) : cmd unit :=
  fun w =>
    if bool_decide (os_path_dirname path ∈ dirs w) then
      (Return tt,
       mk_world (stdout w) (dirs w)
                (<[path := default "" (files w !! path) +:+ text]> (files w)))
    else
      (Raise (FileNotFoundError ("No such file or directory: " +:+ path)), w).

(** [d[k]] on a dict. *)
Definition getitem {V} (d : gmap string V) (k : string) : outcome V :=
  match d !! k with
  | Some v => Return v
  | None => Raise (KeyError k)
  end.

End Extractor.

Notation "'let+' x ':=' c 'in' k" := (Extractor.cbind c (fun x => k))
  (at level 10, x name, c at level 100, k at level 200).
Notation "'do+' c 'in' k" := (Extractor.cbind c (fun _ => k))
  (at level 10, c at level 100, k at level 200).

Module BasslineExtraction.
Import Py Extractor.

Section Collaborators.

Variables track_dicts separator extractor audio beat_positions : Type.

(** [traceback.format_exception], a list of lines. *)
Variable format_exception : exn -> list string.

(** [BasslineExtractor] and the methods of its detectors, from
    [.extractor_classes]. *)
Variable BasslineExtractor :
  string -> gmap string (gmap string string) -> track_dicts -> separator ->
  Z -> Z -> cmd extractor.
Variable track_of : extractor -> audio.
Variable estimate_beat_positions : extractor -> audio -> cmd beat_positions.
Variable export_beat_positions : extractor -> cmd unit.
Variable estimate_chorus : extractor -> beat_positions -> Z -> cmd unit.
Variable export_chorus_start_beat_idx : extractor -> cmd unit.
Variable export_chorus_beat_positions : extractor -> cmd unit.
Variable extract_chorus : extractor -> cmd audio.
Variable export_chorus : extractor -> cmd unit.

(** [exception_logger] *)
Definition exception_logger (directories : gmap string (gmap string string))
    (ex : exn) (date title text_id : string) : cmd unit :=
  let exception_str := String.concat "" (format_exception ex) in
  let+ extraction := clift (getitem directories "extraction") in
  let+ exceptions := clift (getitem extraction "exceptions") in
  let path := os_path_join exceptions (date +:+ "_" +:+ text_id +:+ ".txt") in
  append_file path
    (title +:+ nl +:+ exception_str +:+ nl +:+ str_mul "--" 40 +:+ nl).

(** The statements inside [try:]. *)
Definition extraction_body (title : string)
    (directories : gmap string (gmap string string)) (tds : track_dicts)
    (sep : separator) (fs N_bars : Z) : cmd unit :=
  let+ ex := BasslineExtractor title directories tds sep fs N_bars in
  let+ beats := estimate_beat_positions ex (track_of ex) in
  do+ export_beat_positions ex in
  do+ estimate_chorus ex beats 2 in
  do+ export_chorus_start_beat_idx ex in
  do+ export_chorus_beat_positions ex in
  let+ chorus := extract_chorus ex in
  export_chorus ex.

(** The [except] clauses, tried in the order of the source. *)
Definition handler (directories : gmap string (gmap string string))
    (date title : string) (e : exn) : cmd unit :=
  if isinstance e "KeyboardInterrupt" then
    craise SystemExit
  else if isinstance e "KeyError" then
    do+ print ("Key Error on: " +:+ title) in
    exception_logger directories e date title "KeyError"
  else if isinstance e "FileNotFoundError" then
    do+ print ("FileNotFoundError on: " +:+ title) in
    exception_logger directories e date title "FileNotFoundError"
  else if isinstance e "RuntimeError" then
    do+ print ("RuntimeError on: " +:+ title) in
    exception_logger directories e date title "RuntimeError"
  else if isinstance e "Exception" then
    do+ print ("There was an unexpected error on: " +:+ title) in
    exception_logger directories e date title "unexpected"
  else
    craise e.

(** [extract_single_bassline] *)
Definition extract_single_bassline (title : string)
    (directories : gmap string (gmap string string)) (tds : track_dicts)
    (date : string) (sep : separator) (fs N_bars : Z) : cmd unit :=
  try_except (extraction_body title directories tds sep fs N_bars)
             (handler directories date title).

(** The text id under which an exception is logged. *)
Definition text_id_of (e : exn) : string :=
  if isinstance e "KeyError" then "KeyError"
  else if isinstance e "FileNotFoundError" then "FileNotFoundError"
  else if isinstance e "RuntimeError" then "RuntimeError"
  else "unexpected".

End Collaborators.

End BasslineExtraction.

(** ** The collaborators the class is run with *)

Module Taxonomy.
Import Py.

(** Modelled from the spec: the error taxonomy's [ConfigurationError], a
    class that the sources do not define. *)
Definition ConfigurationError (msg : string) : exn :=
  mk_exn ["ConfigurationError"; "Exception"; "BaseException"] msg.

End Taxonomy.

Module Pipeline.
Import Py RegionQuantizer.

(** [os.path.basename] and [os.path.splitext] of a POSIX path. *)
Fixpoint take_to_slash_rev (r : list ascii) : list ascii :=
  match r with
  | c :: r' => if Ascii.eqb c "/"%char then [] else c :: take_to_slash_rev r'
  | [] => []
  end.

Definition os_path_basename (p : string) : string :=
  string_of_list_ascii (rev (take_to_slash_rev (rev (list_ascii_of_string p)))).

Fixpoint split_ext_rev (r ext : list ascii) : option (list ascii * list ascii) :=
  match r with
  | c :: r' =>
      if Ascii.eqb c "/"%char then None
      else if Ascii.eqb c "."%char then Some (r', c :: ext)
      else split_ext_rev r' (c :: ext)
  | [] => None
  end.

Definition all_dots (r : list ascii) : bool :=
  forallb (fun c => Ascii.eqb c "."%char) (take_to_slash_rev r).

Definition os_path_splitext (p : string) : string * string :=
  match split_ext_rev (rev (list_ascii_of_string p)) [] with
  | Some (root_rev, ext) =>
      if all_dots root_rev then (p, "")
      else (string_of_list_ascii (rev root_rev), string_of_list_ascii ext)
  | None => (p, "")
  end.

(** Modelled from the spec: the missing table of [read_scale_frequencies]
    and [get_track_scale] of [..utilities]: a scale is the ordered
    frequencies of a (key, scale type) name, and an unsupported name fails
    with ConfigurationError. *)
Definition scale_table : Type := list (string * string * list Q).

Definition A_minor : list Q :=
  [55; 61.74; 65.41; 73.42; 82.41; 87.31; 98; 110; 123.47; 130.81]%Q.

Definition read_scale_frequencies : outcome scale_table :=
  Return [("A", "min", A_minor)].

Definition get_track_scale (key scale_type : string) (table : scale_table)
    : outcome (list Q) :=
  match find (fun r => bool_decide (fst r = (key, scale_type))) table with
  | Some r => Return (snd r)
  | None => Raise (Taxonomy.ConfigurationError "unknown key or scale name")
  end.

(** Stand-ins for the collaborators that read audio and beat files: the
    chorus of the track starts at sample 0 at 120 beats per minute. *)
Definition get_chorus_beat_positions (output_dir : string) : outcome (list Z) :=
  Return [0; 22050; 44100; 66150; 88200].

Fixpoint quarter_steps (l : list Z) : list Z :=
  match l with
  | a :: ((b :: _) as rest) =>
      [a; a + (b - a) / 4; a + (b - a) / 2; a + 3 * (b - a) / 4] ++ quarter_steps rest
  | _ => l
  end.

Definition get_quarter_beat_positions (beats : list Z) : list Z :=
  quarter_steps beats.

Definition np_load (path : string) : outcome (list Q) := Return [].

(** The F0 track of the spec's example: eight samples, the last four voiced
    around 110 Hz. *)
Definition example_track : list sample :=
  [mk_sample 0 0 false; mk_sample 0 0 false; mk_sample 0 0 false;
   mk_sample 0 0 false; mk_sample 110 1 true; mk_sample 111 1 true;
   mk_sample 109 1 true; mk_sample 110 1 true]%Q.

Definition pYIN_F0 (bass_line : list Q) (beat_duration : Q)
    (hop_factor N_bars : Z) (threshold : Q)
    : outcome (list sample * list sample) :=
  Return (example_track, example_track).

(** Row 1 of the quantized track: its frequencies. *)
Definition getitem1 (q : list entry) : list pitch := map fst q.

(** Modelled from the spec: the missing [frequency_to_midi_sequence]: a
    frequency becomes the MIDI number [69 + 12 log2(f/440)] rounded to the
    nearest integer, which is the largest [n] with
    [2^(2n-139) <= (f/440)^24]; silence becomes the silence code. *)
Definition midi_number (f : Q) : Z :=
  Z.of_nat (length (filter
    (fun n : Z => Qle_bool (2 ^ (2 * n - 139)) ((f / 440) ^ 24)) (seqZ 1 127))).

Definition frequency_to_midi_sequence (row : list pitch) (silence_code : Z)
    : list Z :=
  map (fun p => match p with Silence => silence_code | Hz f => midi_number f end) row.

(** Modelled from the spec: the missing [midi_sequence_to_midi_array]:
    every M-th cell is kept, then runs of one non-silence code become one
    event (note_number, start_tick, duration_ticks), a cell lasting M
    ticks. *)
Fixpoint every (M : nat) (skip : nat) (l : list Z) : list Z :=
  match l with
  | [] => []
  | x :: l' =>
      match skip with
      | O => x :: every M (M - 1) l'
      | S k => every M k l'
      end
  end.

Fixpoint run_lengths (i : Z) (l : list Z) : list (Z * Z * Z) :=
  match l with
  | [] => []
  | x :: l' =>
      match run_lengths (i + 1) l' with
      | (y, s, d) :: evs =>
          if bool_decide (x = y) && bool_decide (s = i + 1)
          then (x, i, d + 1) :: evs
          else (x, i, 1) :: (y, s, d) :: evs
      | [] => [(x, i, 1)]
      end
  end.

Definition midi_sequence_to_midi_array (midi_sequence : list Z)
    (M N_qb silence_code : Z) : list (Z * Z * Z) :=
  map (fun ev => (ev.1.1, ev.1.2 * M, ev.2 * M))
    (filter (fun ev => ev.1.1 ≠ silence_code)
       (run_lengths 0 (every (Z.to_nat M) 0 midi_sequence))).

(** The class run with these collaborators. *)
Definition transcriber : Type :=
  Transcriber.BassLineTranscriber (list Q) (list Z) (list Q) (list sample)
                                  (list entry).
Definition event : Type := Transcriber.event (list (Z * Z * Z)).

Definition init : string -> Q -> string -> Transcriber.M_arg -> Z -> Z -> Z
    -> prog event transcriber :=
  Transcriber.init scale_table (list Q) (list Z) (list Z) (list Q)
    (list sample) (list entry) (list (Z * Z * Z))
    os_path_basename os_path_splitext read_scale_frequencies get_track_scale
    get_chorus_beat_positions get_quarter_beat_positions np_load.

Definition extract_pitch_track : transcriber -> Q -> prog event transcriber :=
  Transcriber.extract_pitch_track _ _ _ _ _ _ pYIN_F0.

Definition quantize_pitch_track
    : transcriber -> bool -> Q -> string -> prog event transcriber :=
  Transcriber.quantize_pitch_track _ _ _ _ _ _
    adaptive_voiced_region_quantization uniform_voiced_region_quantization.

Definition create_bass_line_MIDI_file : transcriber -> prog event unit :=
  Transcriber.create_bass_line_MIDI_file _ _ _ _ _ _ _ _
    getitem1 frequency_to_midi_sequence midi_sequence_to_midi_array.

(** The object constructed for ["data/bass/song.npy"] at 120 BPM in A minor
    with [M=[1, 2]], [N_bars=4], [hop_factor=64] and [silence_code=0], and
    the same object after [extract_pitch_track]. *)
Definition song0 : transcriber :=
  Transcriber.mk _ _ _ _ _
    "song" 44100 "A" "min" A_minor [1; 2] 4 120 (60 / 120)%Q 3
    "data/outputs/song" "data/outputs/song/F0_estimate"
    "data/outputs/song/pitch_track" "data/outputs/song/quantized_pitch_track"
    "data/outputs/song/midi"
    (get_quarter_beat_positions [0; 22050; 44100; 66150; 88200])
    [] 0 None None None.

Definition song1 : transcriber :=
  Transcriber.set_pitch_tracks song0 example_track example_track.

(** The object after adaptive quantization with [filter_unk=False] and
    [epsilon=2]. *)
Definition song2 : transcriber :=
  Transcriber.set_pitch_track_quantized song1
    (adaptive_voiced_region_quantization example_track A_minor
       (get_quarter_beat_positions [0; 22050; 44100; 66150; 88200]) false 3 2).

(** The three stages in sequence on a fresh object. *)
Definition transcribe (path : string) (bpm : Q) (key : string)
    (M : Transcriber.M_arg) (N_bars hop_factor silence_code : Z)
    (filter_unk : bool) (epsilon : Q) (scheme : string) : prog event transcriber :=
  let* t0 := init path bpm key M N_bars hop_factor silence_code in
  let* t1 := extract_pitch_track t0 0.05 in
  let* t2 := quantize_pitch_track t1 filter_unk epsilon scheme in
  do* create_bass_line_MIDI_file t2 in
  ret t2.

End Pipeline.

(** ** The extractor run on one track *)

Module Batch.
Import Py Extractor.

(** Stand-ins for [.extractor_classes]: constructing the extractor raises
    the exception [failure], if any; the detectors do nothing. *)
Definition BasslineExtractor (failure : option exn) (title : string)
    (directories : gmap string (gmap string string)) (tds sep : unit)
    (fs N_bars : Z) : cmd unit :=
  match failure with
  | Some e => craise e
  | None => cret tt
  end.

Definition format_exception (e : exn) : list string :=
  ["Traceback (most recent call last):"; nl; exn_class e; ": "; exn_msg e].

Definition extract_single_bassline (failure : option exn) (title : string)
    (directories : gmap string (gmap string string)) (date : string)
    : cmd unit :=
  BasslineExtraction.extract_single_bassline unit unit unit unit unit
    format_exception (BasslineExtractor failure) (fun _ => tt)
    (fun _ _ => cret tt) (fun _ => cret tt) (fun _ _ _ => cret tt)
    (fun _ => cret tt) (fun _ => cret tt) (fun _ => cret tt) (fun _ => cret tt)
    title directories tt date tt 44100 4.

Definition directories : gmap string (gmap string string) :=
  {[ "extraction" := {[ "exceptions" := "out/exceptions" ]} ]}.

Definition no_exceptions_entry : gmap string (gmap string string) :=
  {[ "extraction" := {[ "beat_positions" := "out/beats" ]} ]}.

Definition world0 : world := mk_world [] {[ "out/exceptions" ]} ∅.

End Batch.

(** ** The export methods of the class *)

Module Exports.
Import Py Transcriber.

Section Collaborators.

Variables scale positions audio track qtrack : Type.

(** What [export_function] of [..utilities] is given: the array, the
    directory and the title. *)
Inductive exported : Type :=
| F0_array (a : track)
| Quantized_array (q : qtrack).

Inductive event : Type :=
| Print (s : string)
| Export_function (data : exported) (dir title : string).

Abbreviation obj := (BassLineTranscriber scale positions audio track qtrack).

(** [export_F0_estimate] *)
Definition export_F0_estimate (self : obj) : prog event unit :=
  do* emit (Print "Exporting the F0 estimate.") in
  let* est := lift (getattr "F0_estimate" (F0_estimate self)) in
  emit (Export_function (F0_array est)
          (F0_estimate_dir scale positions audio track qtrack self)
          (title self)).

(** [export_pitch_track] *)
Definition export_pitch_track (self : obj) : prog event unit :=
  let* pt := lift (getattr "pitch_track" (pitch_track self)) in
  emit (Export_function (F0_array pt)
          (pitch_track_dir scale positions audio track qtrack self)
          (title self)).

(** [export_quantized_pitch_track] *)
Definition export_quantized_pitch_track (self : obj) : prog event unit :=
  let* q := lift (getattr "pitch_track_quantized" (pitch_track_quantized self)) in
  emit (Export_function (Quantized_array q)
          (quantized_pitch_track_dir scale positions audio track qtrack self)
          (title self)).

End Collaborators.

Arguments F0_array {track qtrack} a.
Arguments Quantized_array {track qtrack} q.
Arguments Print {track qtrack} s.
Arguments Export_function {track qtrack} data dir title.
Arguments export_F0_estimate {scale positions audio track qtrack} self.
Arguments export_pitch_track {scale positions audio track qtrack} self.
Arguments export_quantized_pitch_track {scale positions audio track qtrack} self.

End Exports.

Arguments Transcriber.F0_estimate_dir {scale positions audio track qtrack} _.
Arguments Transcriber.pitch_track_dir {scale positions audio track qtrack} _.
Arguments Transcriber.quantized_pitch_track_dir
  {scale positions audio track qtrack} _.

(** ** The batch entry points *)

Module Main.
Import Py Extractor.

Definition project_dir : string :=
  "/scratch/users/udemir15/ELEC491/bassline_transcription".

(** [s.split(sep)[0]] for a non-empty [sep]: what precedes the first
    occurrence of [sep], or all of [s]. *)
Fixpoint split_head (sep s : string) : string :=
  match s with
  | EmptyString => EmptyString
  | String c s' =>
      if String.prefix sep s then EmptyString else String c (split_head sep s')
  end.

(** [l[idx:]]: a negative [idx] counts from the end. *)
Definition slice_from {A} (idx : Z) (l : list A) : list A :=
  if 0 <=? idx then drop (Z.to_nat idx) l
  else drop (Z.to_nat (Z.of_nat (length l) + idx)) l.

(** [for x in xs: body x] *)
Fixpoint cfor_each {A} (xs : list A) (body : A -> cmd unit) : cmd unit :=
  match xs with
  | [] => cret tt
  | x :: xs' => cbind (body x) (fun _ => cfor_each xs' body)
  end.

Section Collaborators.

Variables track_dicts separator extractor audio beat_positions : Type.
Variables metadata simple_extractor : Type.

(** The collaborators of [extract_single_bassline]. *)
Variable format_exception : exn -> list string.
Variable BasslineExtractor :
  string -> gmap string (gmap string string) -> track_dicts -> separator ->
  Z -> Z -> cmd extractor.
Variable track_of : extractor -> audio.
Variable estimate_beat_positions : extractor -> audio -> cmd beat_positions.
Variable export_beat_positions : extractor -> cmd unit.
Variable estimate_chorus : extractor -> beat_positions -> Z -> cmd unit.
Variable export_chorus_start_beat_idx : extractor -> cmd unit.
Variable export_chorus_beat_positions : extractor -> cmd unit.
Variable extract_chorus : extractor -> cmd audio.
Variable export_chorus : extractor -> cmd unit.

(** [time.strftime(format)], [time.time()] and
    [time.strftime(format, time.gmtime(t))]. *)
Variable strftime : string -> cmd string.
Variable time_time : cmd Q.
Variable strftime_gmtime : string -> Q -> string.

(** [get_directories], [init_folders] and [read_metadata] of [utilities],
    [load_pretrained] of [demucs.pretrained], and [SimpleExtractor] with its
    method from [.extractor_classes]. *)
Variable get_directories : string -> cmd (gmap string (gmap string string)).
Variable init_folders : gmap string string -> cmd unit.
Variable read_metadata :
  gmap string (gmap string string) -> string ->
  cmd (metadata * track_dicts * list string).
Variable load_pretrained : string -> cmd separator.
Variable SimpleExtractor :
  string -> gmap string (gmap string string) -> track_dicts -> separator ->
  cmd simple_extractor.
Variable extract_and_export_bassline : simple_extractor -> cmd unit.

Definition extract_single_bassline :=
  BasslineExtraction.extract_single_bassline track_dicts separator extractor
    audio beat_positions format_exception BasslineExtractor track_of
    estimate_beat_positions export_beat_positions estimate_chorus
    export_chorus_start_beat_idx export_chorus_beat_positions extract_chorus
    export_chorus.

(** [prepare] *)
Definition prepare (directories_path track_dicts_name : string)
    : cmd (gmap string (gmap string string) * track_dicts * list string * string) :=
  let+ date := strftime "%Y-%m-%d_%H-%M-%S" in
  let+ directories := get_directories directories_path in
  let+ extraction := clift (getitem directories "extraction") in
  do+ init_folders extraction in
  let+ md := read_metadata directories track_dicts_name in
  cret (directories, snd (fst md), snd md, date).

(** ['Completed_{}_{}.txt'.format(date, track_dicts_name.split('.json')[0])] *)
Definition completed_file (date track_dicts_name : string) : string :=
  "Completed_" +:+ date +:+ "_" +:+ split_head ".json" track_dicts_name
  +:+ ".txt".

(** The body of the loop of [main]. *)
Definition process_title (directories : gmap string (gmap string string))
    (tds : track_dicts) (date : string) (sep : separator)
    (track_dicts_name title : string) : cmd unit :=
  do+ print (nl +:+ title) in
  do+ extract_single_bassline title directories tds date sep 44100 4 in
  append_file (completed_file date track_dicts_name) (title +:+ nl).

(** [main]; the progress bar of [tqdm] is not part of the world. *)
Definition main (directories_path track_dicts_name : string) (idx : Z)
    : cmd unit :=
  let+ p := prepare directories_path track_dicts_name in
  let '(directories, tds, track_titles, date) := p in
  let+ sep := load_pretrained "demucs_extra" in
  let+ start_time := time_time in
  do+ cfor_each (slice_from idx track_titles)
        (process_title directories tds date sep track_dicts_name) in
  let+ now := time_time in
  print ("Total Run: " +:+ strftime_gmtime "%H:%M:%S" (now - start_time)%Q).

(** The body of the loop of [separate_from_chorus]. *)
Definition separate_title (directories : gmap string (gmap string string))
    (tds : track_dicts) (sep : separator) (title : string) : cmd unit :=
  do+ print (nl +:+ title) in
  let+ ex := SimpleExtractor title directories tds sep in
  extract_and_export_bassline ex.

(** [separate_from_chorus] *)
Definition separate_from_chorus (directories_path : string) : cmd unit :=
  let+ p := prepare directories_path "TechHouse_track_dicts.json" in
  let '(directories, tds, track_titles, date) := p in
  let+ sep := load_pretrained "demucs_extra" in
  let+ start_time := time_time in
  do+ cfor_each track_titles (separate_title directories tds sep) in
  let+ now := time_time in
  print ("Total Run: " +:+ strftime_gmtime "%H:%M:%S" (now - start_time)%Q).

End Collaborators.

End Main.

(** ** A batch session *)

Module Session.
Import Py Extractor.

(** Stand-ins for the collaborators of the batch: the track titled
    ["broken"] has no BPM in the metadata, the track titled ["stop"] is
    interrupted from the keyboard, every other track is extracted without
    effect; the clock does not advance. *)
Definition failure_of (title : string) : option exn :=
  if bool_decide (title = "broken") then Some (KeyError "BPM")
  else if bool_decide (title = "stop") then Some KeyboardInterrupt
  else None.

Definition BasslineExtractor (title : string)
    (directories : gmap string (gmap string string)) (tds sep : unit)
    (fs N_bars : Z) : cmd unit :=
  Batch.BasslineExtractor (failure_of title) title directories tds sep fs N_bars.

Definition SimpleExtractor (title : string)
    (directories : gmap string (gmap string string)) (tds sep : unit)
    : cmd unit :=
  match failure_of title with
  | Some e => craise e
  | None => cret tt
  end.

Definition titles : list string := ["intro"; "broken"; "outro"].

Definition world0 : world := mk_world [] {[ ""; "out/exceptions" ]} ∅.

Definition strftime (format : string) : cmd string := cret "2021-05-01_12-00-00".
Definition time_time : cmd Q := cret 0%Q.
Definition strftime_gmtime (format : string) (t : Q) : string := "00:00:00".
Definition get_directories (path : string)
    : cmd (gmap string (gmap string string)) := cret Batch.directories.
Definition init_folders (extraction : gmap string string) : cmd unit := cret tt.
Definition read_metadata (directories : gmap string (gmap string string))
    (name : string) : cmd (unit * unit * list string) := cret (tt, tt, titles).
Definition load_pretrained (name : string) : cmd unit := cret tt.

Definition extract_single_bassline :=
  Main.extract_single_bassline unit unit unit unit unit
    Batch.format_exception BasslineExtractor (fun _ => tt)
    (fun _ _ => cret tt) (fun _ => cret tt) (fun _ _ _ => cret tt)
    (fun _ => cret tt) (fun _ => cret tt) (fun _ => cret tt) (fun _ => cret tt).

Definition process_title :=
  Main.process_title unit unit unit unit unit
    Batch.format_exception BasslineExtractor (fun _ => tt)
    (fun _ _ => cret tt) (fun _ => cret tt) (fun _ _ _ => cret tt)
    (fun _ => cret tt) (fun _ => cret tt) (fun _ => cret tt) (fun _ => cret tt).

Definition main : string -> string -> Z -> cmd unit :=
  Main.main unit unit unit unit unit unit
    Batch.format_exception BasslineExtractor (fun _ => tt)
    (fun _ _ => cret tt) (fun _ => cret tt) (fun _ _ _ => cret tt)
    (fun _ => cret tt) (fun _ => cret tt) (fun _ => cret tt) (fun _ => cret tt)
    strftime time_time strftime_gmtime get_directories init_folders
    read_metadata load_pretrained.

Definition separate_title :=
  Main.separate_title unit unit unit SimpleExtractor (fun _ => cret tt).

End Session.

(** * Properties *)

(** ** The region quantizer keeps the length of the track *)

Section QuantizerLength.
Import RegionQuantizer.

Lemma length_fill {A} (start stop : nat) (v : A) (out : list A) :
  length (fill start stop v out) = length out.
Proof. unfold fill. apply length_imap. Qed.

Lemma length_fill_regions {A} (value : nat * nat -> A) (regions : list (nat * nat))
    (out : list A) :
  length (fold_left (fun o r => fill (fst r) (snd r) (value r) o) regions out)
  = length out.
Proof.
  revert out. induction regions as [|r regions IH]; intros out; simpl.
  - reflexivity.
  - rewrite IH. apply length_fill.
Qed.

Lemma length_adaptive track scale qbp filter_unk threshold epsilon :
  length (adaptive_voiced_region_quantization track scale qbp filter_unk
            threshold epsilon)
  = length track.
Proof.
  unfold adaptive_voiced_region_quantization.
  rewrite (length_fill_regions
             (region_entry scale filter_unk threshold epsilon
                           (map frequency_hz track))).
  apply length_replicate.
Qed.

Lemma length_uniform track scale epsilon :
  length (uniform_voiced_region_quantization track scale epsilon) = length track.
Proof. unfold uniform_voiced_region_quantization. apply length_map. Qed.

(** The spec's examples of the two strategies. *)
Example adaptive_example :
  adaptive_voiced_region_quantization Pipeline.example_track Pipeline.A_minor
    [] false 4 2
  = replicate 4 silent ++ replicate 4 (Hz 110, Degree 7).
Proof. vm_compute. reflexivity. Qed.

Example uniform_example : snap 1 110.4 = 110%Q.
Proof. vm_compute. reflexivity. Qed.

(** C1. For every F0 track held by the transcriber and every configuration,
    [quantize_pitch_track] under the adaptive or the uniform scheme returns,
    and the quantized pitch track it stores has as many entries as the F0
    track. *)
Theorem quantize_pitch_track_length
    (self : Pipeline.transcriber) (f0 : list sample)
    (filter_unk : bool) (epsilon : Q) (scheme : string) :
  Transcriber.pitch_track self = Some f0 ->
  scheme = "adaptive" \/ scheme = "uniform" ->
  exists self' q,
    Py.result (Pipeline.quantize_pitch_track self filter_unk epsilon scheme)
      = Py.Return self'
    /\ Transcriber.pitch_track_quantized self' = Some q
    /\ length q = length f0.
Proof.
  intros Hpt Hscheme.
  unfold Pipeline.quantize_pitch_track, Transcriber.quantize_pitch_track.
  rewrite Hpt.
  destruct Hscheme as [-> | ->]; simpl.
  - eexists _, _. split; [reflexivity|]. split; [reflexivity|].
    apply length_adaptive.
  - eexists _, _. split; [reflexivity|]. split; [reflexivity|].
    apply length_uniform.
Qed.

End QuantizerLength.

Lemma quantize_pitch_track_length_witness :
  Transcriber.pitch_track Pipeline.song1 = Some Pipeline.example_track
  /\ exists self' q,
       Py.result (Pipeline.quantize_pitch_track Pipeline.song1 false 2 "adaptive")
         = Py.Return self'
       /\ Transcriber.pitch_track_quantized self' = Some q
       /\ length q = length Pipeline.example_track.
Proof.
  split; [reflexivity|].
  apply (quantize_pitch_track_length Pipeline.song1 Pipeline.example_track
           false 2 "adaptive"); [reflexivity | left; reflexivity].
Defined.

(** ** Arithmetic of the constructor *)

Section ConstructorArithmetic.
Import Py Transcriber.

Lemma FRAME_LEN_value : FRAME_LEN = 1348.
Proof. reflexivity. Qed.

Lemma int_of_inject_div (a : Z) (p : positive) :
  int_of (inject_Z a / inject_Z (Z.pos p)) = Z.quot a (Z.pos p).
Proof.
  unfold int_of, Qdiv, Qinv, Qmult, inject_Z; simpl.
  rewrite Z.mul_1_r. reflexivity.
Qed.

(** [int(FRAME_LEN / L)] is defined exactly when [L] is not zero, and is
    then the quotient truncated towards zero. *)
Lemma frame_factor_of_Return (L ff : Z) :
  frame_factor_of L = Return ff -> L <> 0 /\ ff = Z.quot FRAME_LEN L.
Proof.
  unfold frame_factor_of, truediv_int. destruct L as [|p|p]; simpl.
  - discriminate.
  - rewrite int_of_inject_div. intros [= <-]. split; [discriminate|reflexivity].
  - intros [= <-]. split; [discriminate|].
    unfold int_of, Qdiv, Qinv, Qmult, inject_Z; simpl.
    rewrite FRAME_LEN_value. simpl.
    change (Z.neg p) with (- Z.pos p). rewrite Z.quot_opp_r by discriminate.
    rewrite <- Z.quot_opp_l by discriminate. reflexivity.
Qed.

Lemma quot_bounds (L : Z) :
  0 < L ->
  Z.quot FRAME_LEN L * L <= FRAME_LEN < (Z.quot FRAME_LEN L + 1) * L.
Proof.
  intros HL. rewrite FRAME_LEN_value.
  rewrite Z.quot_div_nonneg by lia.
  pose proof (Z.mul_div_le 1348 L HL).
  pose proof (Z.mul_succ_div_gt 1348 L HL).
  lia.
Qed.

End ConstructorArithmetic.

(** ** Paths and loops *)

Section PathFacts.
Import Py.

Lemma pretty_N_go_no_slash (x : N) (s : string) :
  startswith_slash s = false -> startswith_slash (pretty_N_go x s) = false.
Proof.
  revert s. induction (N.lt_wf_0 x) as [x _ IH]. intros s Hs.
  destruct (decide (x = 0%N)) as [->|Hx].
  - rewrite pretty_N_go_0. exact Hs.
  - rewrite pretty_N_go_step by lia.
    apply IH.
    + apply N.div_lt; lia.
    + simpl. unfold pretty_N_char.
      repeat case_match; reflexivity.
Qed.

Lemma pretty_N_no_slash (x : N) : startswith_slash (pretty x) = false.
Proof.
  unfold pretty, pretty_N. case_decide; [reflexivity|].
  apply pretty_N_go_no_slash. reflexivity.
Qed.

(** [str(m)] never starts with a slash. *)
Lemma str_no_slash (m : Z) : startswith_slash (str m) = false.
Proof.
  unfold str, pretty, pretty_Z. destruct m as [|p|p].
  - reflexivity.
  - apply pretty_N_no_slash.
  - reflexivity.
Qed.

(** Distinct decimation rates are exported to distinct directories. *)
Lemma os_path_join_str_inj (d : string) (m m' : Z) :
  os_path_join d (str m) = os_path_join d (str m') -> m = m'.
Proof.
  unfold os_path_join. rewrite !str_no_slash.
  destruct (bool_decide (d = "") || endswith_slash d); intros H.
  - apply (inj (String.app d)) in H. apply (inj pretty). exact H.
  - apply (inj (String.app d)) in H. apply (inj (String.app "/")) in H.
    apply (inj pretty). exact H.
Qed.

(** A loop whose body emits the events [evs x] and returns. *)
Lemma for_each_events {E A} (evs : A -> list E) (body : A -> prog E unit)
    (xs : list A) :
  (forall x, body x = (evs x, Return tt)) ->
  for_each xs body = (flat_map evs xs, Return tt).
Proof.
  intros Hbody. induction xs as [|x xs IH]; cbn [for_each flat_map].
  - reflexivity.
  - rewrite Hbody, IH. reflexivity.
Qed.

Lemma scheme_cases (scheme : string) :
  scheme = "adaptive" \/ scheme = "uniform"
  \/ (scheme <> "adaptive" /\ scheme <> "uniform").
Proof.
  destruct (decide (scheme = "adaptive")) as [Ha|Ha]; [left; exact Ha|].
  destruct (decide (scheme = "uniform")) as [Hu|Hu]; [right; left; exact Hu|].
  right; right. split; assumption.
Qed.

End PathFacts.

(** ** The transcriber, for arbitrary collaborators *)

Section TranscriberFacts.
Import Py Transcriber.

Context {scale_table scale beat_positions positions audio : Type}.
Context {track qtrack freq_row midi_seq midi_array : Type}.
Context (os_path_basename : string -> string)
        (os_path_splitext : string -> string * string)
        (read_scale_frequencies : outcome scale_table)
        (get_track_scale : string -> string -> scale_table -> outcome scale)
        (get_chorus_beat_positions : string -> outcome beat_positions)
        (get_quarter_beat_positions : beat_positions -> positions)
        (np_load : string -> outcome audio)
        (pYIN_F0 : audio -> Q -> Z -> Z -> Q -> outcome (track * track))
        (adaptive : track -> scale -> positions -> bool -> Z -> Q -> qtrack)
        (uniform : track -> scale -> Q -> qtrack)
        (getitem1 : qtrack -> freq_row)
        (frequency_to_midi_sequence : freq_row -> Z -> midi_seq)
        (midi_sequence_to_midi_array : midi_seq -> Z -> Z -> Z -> midi_array).

Local Abbreviation obj := (BassLineTranscriber scale positions audio track qtrack).
Local Abbreviation ev := (event midi_array).
Local Abbreviation init :=
  (init scale_table scale beat_positions positions audio track qtrack midi_array
        os_path_basename os_path_splitext read_scale_frequencies
        get_track_scale get_chorus_beat_positions get_quarter_beat_positions
        np_load).
Local Abbreviation extract_pitch_track :=
  (extract_pitch_track scale positions audio track qtrack midi_array pYIN_F0).
Local Abbreviation quantize_pitch_track :=
  (quantize_pitch_track scale positions audio track qtrack midi_array
                        adaptive uniform).
Local Abbreviation create_bass_line_MIDI_file :=
  (create_bass_line_MIDI_file scale positions audio track qtrack freq_row
     midi_seq midi_array getitem1 frequency_to_midi_sequence
     midi_sequence_to_midi_array).

(** The constructor reads [M] only to store the decimation rates. *)
Lemma init_M path bpm key_arg M_ N hop sc :
  init path bpm key_arg M_ N hop sc
  = match init path bpm key_arg (M_seq []) N hop sc with
    | (tr, Return t) => (tr, Return (with_M t (decimation_rates M_)))
    | (tr, Raise e) => (tr, Raise e)
    end.
Proof.
  unfold Transcriber.init.
  destruct (unpack2 _) as [ks|e]; [|reflexivity]. simpl.
  destruct read_scale_frequencies as [table|e]; [|reflexivity]. simpl.
  destruct (get_track_scale _ _ _) as [s|e]; [|reflexivity]. simpl.
  destruct (truediv 60 bpm) as [bd|e]; [|reflexivity]. simpl.
  destruct (F0_sample_length_of bd hop) as [L|e]; [|reflexivity]. simpl.
  destruct (frame_factor_of L) as [ff|e]; [|reflexivity]. simpl.
  destruct (get_chorus_beat_positions _) as [cbp|e]; [|reflexivity]. simpl.
  destruct (np_load path) as [bl|e]; [|reflexivity]. simpl.
  reflexivity.
Qed.

(** What a successful construction computed. *)
Lemma init_Return path bpm key_arg M_ N hop sc t :
  result (init path bpm key_arg M_ N hop sc) = Return t ->
  exists bd L,
    truediv 60 bpm = Return bd
    /\ F0_sample_length_of bd hop = Return L
    /\ frame_factor_of L = Return (frame_factor t)
    /\ beat_duration t = bd
    /\ M t = decimation_rates M_
    /\ pitch_track t = None /\ pitch_track_quantized t = None.
Proof.
  unfold Transcriber.init.
  destruct (unpack2 _) as [ks|e]; [|discriminate]. simpl.
  destruct read_scale_frequencies as [table|e]; [|discriminate]. simpl.
  destruct (get_track_scale _ _ _) as [s|e]; [|discriminate]. simpl.
  destruct (truediv 60 bpm) as [bd|e]; [|discriminate]. simpl.
  destruct (F0_sample_length_of bd hop) as [L|e] eqn:EL; [|discriminate]. simpl.
  destruct (frame_factor_of L) as [ff|e] eqn:Eff; [|discriminate]. simpl.
  destruct (get_chorus_beat_positions _) as [cbp|e]; [|discriminate]. simpl.
  destruct (np_load path) as [bl|e]; [|discriminate]. simpl.
  intros [= <-]. exists bd, L. simpl. repeat split; reflexivity || assumption.
Qed.

(** What [extract_pitch_track] emits and stores. *)
Lemma extract_pitch_track_trace self thr :
  trace (extract_pitch_track self thr)
  = [Print "Starting the transcription process.";
     Call_pYIN_F0 (beat_duration self) 32 (N_bars self) thr].
Proof.
  unfold Transcriber.extract_pitch_track, trace.
  destruct (pYIN_F0 _ _ _ _ _); reflexivity.
Qed.

Lemma extract_pitch_track_Return self thr self' :
  result (extract_pitch_track self thr) = Return self' ->
  exists est pt, self' = set_pitch_tracks self est pt.
Proof.
  unfold Transcriber.extract_pitch_track.
  destruct (pYIN_F0 _ _ _ _ _) as [[est pt]|e]; [|discriminate]. simpl.
  intros [= <-]. eauto.
Qed.

(** The three cases of [quantize_pitch_track]. *)
Lemma quantize_adaptive self filter_unk eps :
  quantize_pitch_track self filter_unk eps "adaptive"
  = (let* pt := lift (getattr "pitch_track" (pitch_track self)) in
     ret (set_pitch_track_quantized self
            (adaptive pt (track_scale self) (quarter_beat_positions self)
               filter_unk (frame_factor self) eps))).
Proof. reflexivity. Qed.

Lemma quantize_uniform self filter_unk eps :
  quantize_pitch_track self filter_unk eps "uniform"
  = (let* pt := lift (getattr "pitch_track" (pitch_track self)) in
     ret (set_pitch_track_quantized self (uniform pt (track_scale self) eps))).
Proof. reflexivity. Qed.

Lemma quantize_other self filter_unk eps scheme :
  scheme <> "adaptive" -> scheme <> "uniform" ->
  quantize_pitch_track self filter_unk eps scheme
  = raise (AssertionError "Choose between adaptive and uniform quantization!").
Proof.
  intros Ha Hu. unfold Transcriber.quantize_pitch_track.
  rewrite bool_decide_eq_false_2; [reflexivity|].
  intros H. rewrite !elem_of_cons, elem_of_nil in H.
  destruct H as [H|[H|H]]; [exact (Ha H) | exact (Hu H) | exact H].
Qed.



(** C3 (as amended).  ['adaptive'] runs the adaptive strategy and
    ['uniform'] the uniform one; every other scheme raises AssertionError
    before anything else happens, and the object, with any quantized pitch
    track it had, is left as it was. *)
Theorem quantize_pitch_track_scheme (self : obj) filter_unk eps scheme :
  (scheme = "adaptive" ->
     quantize_pitch_track self filter_unk eps scheme
     = (let* pt := lift (getattr "pitch_track" (pitch_track self)) in
        ret (set_pitch_track_quantized self
               (adaptive pt (track_scale self) (quarter_beat_positions self)
                  filter_unk (frame_factor self) eps))))
  /\ (scheme = "uniform" ->
     quantize_pitch_track self filter_unk eps scheme
     = (let* pt := lift (getattr "pitch_track" (pitch_track self)) in
        ret (set_pitch_track_quantized self
               (uniform pt (track_scale self) eps))))
  /\ (scheme <> "adaptive" -> scheme <> "uniform" ->
     quantize_pitch_track self filter_unk eps scheme
     = ([], Raise (AssertionError
                     "Choose between adaptive and uniform quantization!"))
     /\ object_after self (quantize_pitch_track self filter_unk eps scheme)
        = self).
Proof.
  split; [|split].
  - intros ->. apply quantize_adaptive.
  - intros ->. apply quantize_uniform.
  - intros Ha Hu. rewrite (quantize_other _ _ _ _ Ha Hu). split; reflexivity.
Qed.

(** C4 (as amended).  The constructor does not validate [M]: what it
    prints, whether it raises and which exception, are the same for any two
    values of [M], and when it returns the only attribute that depends on
    [M] is the list of decimation rates, [[M]] for an [int] and [M] itself
    for a collection. *)
Theorem init_does_not_validate_M path bpm key_arg M1 M2 N hop sc :
  trace (init path bpm key_arg M1 N hop sc)
  = trace (init path bpm key_arg M2 N hop sc)
  /\ match result (init path bpm key_arg M1 N hop sc),
           result (init path bpm key_arg M2 N hop sc) with
     | Return t1, Return t2 =>
         t1 = with_M t2 (decimation_rates M1)
         /\ M t1 = decimation_rates M1 /\ M t2 = decimation_rates M2
     | Raise e1, Raise e2 => e1 = e2
     | _, _ => False
     end.
Proof.
  rewrite (init_M path bpm key_arg M1), (init_M path bpm key_arg M2).
  destruct (init path bpm key_arg (M_seq []) N hop sc) as [tr [t|e]]; simpl.
  - split; [reflexivity|]. split; [reflexivity|]. split; reflexivity.
  - split; reflexivity.
Qed.

(** C5.  Whatever [hop_factor] the object was constructed with,
    [extract_pitch_track] calls the pitch estimator with [hop_factor=32]. *)
Theorem extract_pitch_track_hop_factor (self : obj) thr :
  trace (extract_pitch_track self thr)
  = [Print "Starting the transcription process.";
     Call_pYIN_F0 (beat_duration self) 32 (N_bars self) thr].
Proof. apply extract_pitch_track_trace. Qed.

Lemma count_export_events (self : obj) (seq : midi_seq) (rates : list Z) :
  length (List.filter is_Create_MIDI_file
            (flat_map (export_events midi_sequence_to_midi_array self seq) rates))
  = length rates.
Proof.
  induction rates as [|m rates IH]; simpl.
  - reflexivity.
  - rewrite IH. reflexivity.
Qed.

(** C6.  With a quantized pitch track in place, the MIDI sequence is
    derived once, and for each element [m] of the decimation rates, in
    order, one MIDI array is built from that sequence with [M=m] and handed
    to [create_MIDI_file] together with the directory [midi_dir/str(m)],
    which is created first; there are as many exports as rates, and
    different rates have different directories. *)
Theorem create_bass_line_MIDI_file_per_M (self : obj) (q : qtrack) :
  pitch_track_quantized self = Some q ->
  create_bass_line_MIDI_file self
  = (Print "Creating the MIDI file."
       :: flat_map
            (export_events midi_sequence_to_midi_array self
               (frequency_to_midi_sequence (getitem1 q) (silence_code self)))
            (M self),
     Return tt)
  /\ length (List.filter is_Create_MIDI_file
               (trace (create_bass_line_MIDI_file self)))
     = length (M self)
  /\ forall m m',
       os_path_join (midi_dir self) (str m) = os_path_join (midi_dir self) (str m')
       -> m = m'.
Proof.
  intros Hq.
  assert (create_bass_line_MIDI_file self
          = (Print "Creating the MIDI file."
               :: flat_map
                    (export_events midi_sequence_to_midi_array self
                       (frequency_to_midi_sequence (getitem1 q)
                          (silence_code self)))
                    (M self),
             Return tt)) as Heq.
  { unfold Transcriber.create_bass_line_MIDI_file. rewrite Hq.
    cbn [getattr lift emit bind app].
    rewrite (for_each_events
               (export_events midi_sequence_to_midi_array self
                  (frequency_to_midi_sequence (getitem1 q) (silence_code self))))
      by (intros m; reflexivity).
    reflexivity. }
  split; [exact Heq|]. split.
  - rewrite Heq. cbn [trace fst List.filter is_Create_MIDI_file].
    apply count_export_events.
  - intros m m'. apply os_path_join_str_inj.
Qed.



(** C9.  Constructing with the integer [m] is constructing with the
    one-element list [[m]]: same output, same exception or same object, whose
    decimation rates are [[m]]. *)
Theorem init_int_M_is_singleton path bpm key_arg N hop sc (m : Z) :
  init path bpm key_arg (M_int m) N hop sc
  = init path bpm key_arg (M_seq [m]) N hop sc
  /\ decimation_rates (M_int m) = [m]
  /\ match result (init path bpm key_arg (M_int m) N hop sc) with
     | Return t => M t = [m]
     | Raise _ => True
     end.
Proof.
  split; [reflexivity|]. split; [reflexivity|].
  rewrite init_M.
  destruct (init path bpm key_arg (M_seq []) N hop sc) as [tr [t|e]];
    [reflexivity | exact I].
Qed.

End TranscriberFacts.

(** ** The class run on a track *)

Section Song.
Import Py Transcriber.

Lemma init_song :
  Pipeline.init "data/bass/song.npy" 120 "A min" (M_seq [1; 2]) 4 64 0
  = ([Print "frame length: 1348"; Print "F0_sample_length: 344";
      Print "frame factor: 3"],
     Return Pipeline.song0).
Proof. vm_compute. reflexivity. Qed.

Lemma extract_song :
  Pipeline.extract_pitch_track Pipeline.song0 0.05
  = ([Print "Starting the transcription process.";
      Call_pYIN_F0 (60 / 120) 32 4 0.05],
     Return Pipeline.song1).
Proof. reflexivity. Qed.



(** C3, counterexample.  An unknown scheme raises AssertionError, which is
    not a ConfigurationError. *)
Lemma unknown_scheme_raises_AssertionError :
  Pipeline.quantize_pitch_track Pipeline.song1 false 2 "median"
  = ([], Raise (AssertionError
                  "Choose between adaptive and uniform quantization!"))
  /\ isinstance (AssertionError
                  "Choose between adaptive and uniform quantization!")
       "ConfigurationError" = false
  /\ forall msg,
       result (Pipeline.quantize_pitch_track Pipeline.song1 false 2 "median")
       <> Raise (Taxonomy.ConfigurationError msg).
Proof.
  split; [reflexivity|]. split; [reflexivity|].
  intros msg H. vm_compute in H. discriminate H.
Qed.

Lemma quantize_pitch_track_scheme_witness :
  Pipeline.quantize_pitch_track Pipeline.song1 false 2 "median"
  = ([], Raise (AssertionError
                  "Choose between adaptive and uniform quantization!"))
  /\ object_after Pipeline.song1
       (Pipeline.quantize_pitch_track Pipeline.song1 false 2 "median")
     = Pipeline.song1.
Proof.
  apply (quantize_pitch_track_scheme
           RegionQuantizer.adaptive_voiced_region_quantization
           RegionQuantizer.uniform_voiced_region_quantization
           Pipeline.song1 false 2 "median"); discriminate.
Defined.

(** C4, counterexample.  Constructing with [M=3], and with [M=[3, 5]],
    returns an object; nothing is raised. *)
Lemma init_accepts_M_3 :
  result (Pipeline.init "data/bass/song.npy" 120 "A min" (M_int 3) 4 64 0)
  = Return (with_M Pipeline.song0 [3])
  /\ result (Pipeline.init "data/bass/song.npy" 120 "A min" (M_seq [3; 5]) 4 64 0)
     = Return (with_M Pipeline.song0 [3; 5]).
Proof. split; vm_compute; reflexivity. Qed.

(** C5, at the failing input.  The object constructed with
    [hop_factor=64] runs the pitch estimator with [hop_factor=32]. *)
Lemma extract_pitch_track_ignores_hop_factor :
  result (Pipeline.init "data/bass/song.npy" 120 "A min" (M_seq [1; 2]) 4 64 0)
  = Return Pipeline.song0
  /\ trace (Pipeline.extract_pitch_track Pipeline.song0 0.05)
     = [Print "Starting the transcription process.";
        Call_pYIN_F0 (60 / 120) 32 4 0.05]
  /\ (32 <> 64)%Z.
Proof.
  split; [vm_compute; reflexivity|]. split; [reflexivity|]. discriminate.
Qed.

(** The whole pipeline on the example track. *)
Example transcribe_song :
  Pipeline.transcribe "data/bass/song.npy" 120 "A min" (M_seq [1; 2]) 4 64 0
    false 2 "adaptive"
  = ([Print "frame length: 1348"; Print "F0_sample_length: 344";
      Print "frame factor: 3";
      Print "Starting the transcription process.";
      Call_pYIN_F0 (60 / 120) 32 4 0.05;
      Print "Creating the MIDI file.";
      Makedirs "data/outputs/song/midi/1";
      Create_MIDI_file [(45, 4, 4)] 120 "song" "data/outputs/song/midi/1";
      Makedirs "data/outputs/song/midi/2";
      Create_MIDI_file [(45, 4, 4)] 120 "song" "data/outputs/song/midi/2"],
     Return Pipeline.song2).
Proof. vm_compute. reflexivity. Qed.

Lemma quantize_song :
  Pipeline.quantize_pitch_track Pipeline.song1 false 2 "adaptive"
  = ([], Return Pipeline.song2).
Proof. reflexivity. Qed.

Lemma create_bass_line_MIDI_file_per_M_witness :
  pitch_track_quantized Pipeline.song2
  = Some (replicate 4 RegionQuantizer.silent
          ++ replicate 4 (RegionQuantizer.Hz 110, RegionQuantizer.Degree 7))
  /\ trace (Pipeline.create_bass_line_MIDI_file Pipeline.song2)
     = [Print "Creating the MIDI file.";
        Makedirs "data/outputs/song/midi/1";
        Create_MIDI_file [(45, 4, 4)] 120 "song" "data/outputs/song/midi/1";
        Makedirs "data/outputs/song/midi/2";
        Create_MIDI_file [(45, 4, 4)] 120 "song" "data/outputs/song/midi/2"]
  /\ length (List.filter is_Create_MIDI_file
               (trace (Pipeline.create_bass_line_MIDI_file Pipeline.song2)))
     = length (M Pipeline.song2).
Proof.
  assert (pitch_track_quantized Pipeline.song2
          = Some (replicate 4 RegionQuantizer.silent
                  ++ replicate 4 (RegionQuantizer.Hz 110,
                                  RegionQuantizer.Degree 7))) as Hq.
  { vm_compute. reflexivity. }
  destruct (create_bass_line_MIDI_file_per_M
              Pipeline.getitem1 Pipeline.frequency_to_midi_sequence
              Pipeline.midi_sequence_to_midi_array Pipeline.song2 _ Hq)
    as (Heq & Hlen & _).
  split; [exact Hq|]. split; [|exact Hlen].
  unfold Pipeline.create_bass_line_MIDI_file. rewrite Heq.
  vm_compute. reflexivity.
Defined.


End Song.

(** ** The extractor, for arbitrary collaborators *)

Section ExtractionFacts.
Import Py Extractor BasslineExtraction.

Context {track_dicts separator extractor audio beat_positions : Type}.
Context (format_exception : exn -> list string)
        (BasslineExtractor :
           string -> gmap string (gmap string string) -> track_dicts ->
           separator -> Z -> Z -> cmd extractor)
        (track_of : extractor -> audio)
        (estimate_beat_positions : extractor -> audio -> cmd beat_positions)
        (export_beat_positions : extractor -> cmd unit)
        (estimate_chorus : extractor -> beat_positions -> Z -> cmd unit)
        (export_chorus_start_beat_idx : extractor -> cmd unit)
        (export_chorus_beat_positions : extractor -> cmd unit)
        (extract_chorus : extractor -> cmd audio)
        (export_chorus : extractor -> cmd unit).

Local Abbreviation exception_logger :=
  (exception_logger format_exception).
Local Abbreviation extraction_body :=
  (extraction_body track_dicts separator extractor audio beat_positions
     BasslineExtractor track_of estimate_beat_positions export_beat_positions
     estimate_chorus export_chorus_start_beat_idx export_chorus_beat_positions
     extract_chorus export_chorus).
Local Abbreviation handler := (handler format_exception).
Local Abbreviation extract_single_bassline :=
  (extract_single_bassline track_dicts separator extractor audio beat_positions
     format_exception
     BasslineExtractor track_of estimate_beat_positions export_beat_positions
     estimate_chorus export_chorus_start_beat_idx export_chorus_beat_positions
     extract_chorus export_chorus).

(** The logger appends one entry when the exceptions directory is
    configured and exists. *)
Lemma exception_logger_Return directories ex date title text_id w
    (extraction : gmap string string) (d : string) :
  directories !! "extraction" = Some extraction ->
  extraction !! "exceptions" = Some d ->
  os_path_dirname (os_path_join d (date +:+ "_" +:+ text_id +:+ ".txt"))
    ∈ dirs w ->
  exception_logger directories ex date title text_id w
  = (Return tt,
     mk_world (stdout w) (dirs w)
       (<[os_path_join d (date +:+ "_" +:+ text_id +:+ ".txt") :=
            default "" (files w !! os_path_join d
                                     (date +:+ "_" +:+ text_id +:+ ".txt"))
            +:+ (title +:+ nl +:+ String.concat "" (format_exception ex)
                 +:+ nl +:+ str_mul "--" 40 +:+ nl)]> (files w))).
Proof.
  intros Hext Hd Hdir.
  unfold BasslineExtraction.exception_logger, cbind, clift, getitem.
  rewrite Hext, Hd. unfold append_file.
  rewrite bool_decide_eq_true_2 by exact Hdir. reflexivity.
Qed.

(** An exception of class Exception is printed about and logged under its
    text id. *)
Lemma handler_logs directories date title e w :
  isinstance e "KeyboardInterrupt" = false ->
  isinstance e "Exception" = true ->
  exists msg,
    handler directories date title e w
    = exception_logger directories e date title (text_id_of e)
        (mk_world (stdout w ++ [msg]) (dirs w) (files w)).
Proof.
  intros Hki Hex. unfold BasslineExtraction.handler, text_id_of.
  rewrite Hki.
  destruct (isinstance e "KeyError"); [eexists; reflexivity|].
  destruct (isinstance e "FileNotFoundError"); [eexists; reflexivity|].
  destruct (isinstance e "RuntimeError"); [eexists; reflexivity|].
  rewrite Hex. eexists; reflexivity.
Qed.


End ExtractionFacts.

(** ** The extractor run on a track *)

Section BatchRun.
Import Py Extractor BasslineExtraction.



End BatchRun.

(** * Further properties of the transcriber *)

Section SplitFacts.
Import Py.

Lemma split_not_nil (sep : ascii) (s : string) : split sep s <> [].
Proof.
  destruct s as [|c s]; simpl.
  - discriminate.
  - destruct (Ascii.eqb c sep); [discriminate|].
    destruct (split sep s); discriminate.
Qed.

Lemma concat_cons_cons (sep x y : string) (l : list string) :
  String.concat sep (x :: y :: l) = x +:+ sep +:+ String.concat sep (y :: l).
Proof. reflexivity. Qed.

(** Joining the parts with the separator gives the string back. *)
Lemma concat_split (sep : ascii) (s : string) :
  String.concat (String sep EmptyString) (split sep s) = s.
Proof.
  induction s as [|c s IH]; simpl.
  - reflexivity.
  - pose proof (split_not_nil sep s) as Hn.
    destruct (Ascii.eqb c sep) eqn:E.
    + apply Ascii.eqb_eq in E. subst c.
      destruct (split sep s) as [|w ws]; [congruence|].
      rewrite concat_cons_cons, IH. reflexivity.
    + destruct (split sep s) as [|w ws]; [congruence|].
      destruct ws as [|w' ws].
      * rewrite <- IH. reflexivity.
      * rewrite <- IH. reflexivity.
Qed.

(** There is one part more than there are separators. *)
Lemma length_split (sep : ascii) (s : string) :
  length (split sep s)
  = S (count_occ Ascii.ascii_dec (list_ascii_of_string s) sep).
Proof.
  induction s as [|c s IH]; simpl.
  - reflexivity.
  - destruct (Ascii.eqb c sep) eqn:E.
    + apply Ascii.eqb_eq in E. subst c.
      destruct (Ascii.ascii_dec sep sep); [|congruence].
      simpl. rewrite IH. reflexivity.
    + apply Ascii.eqb_neq in E.
      destruct (Ascii.ascii_dec c sep); [congruence|].
      rewrite <- IH.
      pose proof (split_not_nil sep s) as Hn.
      destruct (split sep s); [congruence|reflexivity].
Qed.

(** No part contains the separator. *)
Lemma split_no_sep (sep : ascii) (s w : string) :
  In w (split sep s) -> ~ In sep (list_ascii_of_string w).
Proof.
  revert w. induction s as [|c s IH]; simpl; intros w Hw.
  - destruct Hw as [<-|[]]. simpl. tauto.
  - destruct (Ascii.eqb c sep) eqn:E.
    + destruct Hw as [<-|Hw]; [simpl; tauto|]. apply IH. exact Hw.
    + apply Ascii.eqb_neq in E.
      pose proof (split_not_nil sep s) as Hn.
      destruct (split sep s) as [|w0 ws]; [congruence|].
      destruct Hw as [<-|Hw].
      * simpl. intros [H|H]; [congruence|].
        apply (IH w0); [left; reflexivity|exact H].
      * apply IH. right. exact Hw.
Qed.

End SplitFacts.

Section TempoArithmetic.
Import Py Transcriber.

(** On a non-negative float [int] is the floor. *)
Lemma int_of_floor (x : Q) : (0 <= x)%Q -> int_of x = Qfloor x.
Proof.
  intros Hx. unfold int_of. destruct x as [n d]. simpl.
  apply Z.quot_div_nonneg; [|reflexivity].
  unfold Qle in Hx. simpl in Hx. lia.
Qed.

(** The samples of audio in one F0 sample, for a positive tempo and hop
    factor. *)
Lemma F0_sample_length_positive (bpm : Q) (hop : Z) :
  (0 < bpm)%Q -> 0 < hop ->
  truediv 60 bpm = Return (60 / bpm)%Q
  /\ F0_sample_length_of (60 / bpm) hop
     = Return (Qfloor (2646000 / (bpm * inject_Z hop))).
Proof.
  intros Hb Hh.
  assert (0 < inject_Z hop)%Q as Hh'.
  { unfold Qlt, inject_Z; simpl. lia. }
  assert (truediv 60 bpm = Return (60 / bpm)%Q) as Hbd.
  { unfold truediv. destruct (Qeq_bool bpm 0) eqn:E; [|reflexivity].
    apply Qeq_bool_eq in E. rewrite E in Hb. inversion Hb. }
  split; [exact Hbd|].
  unfold F0_sample_length_of, truediv.
  destruct (Qeq_bool (inject_Z hop) 0) eqn:E.
  { apply Qeq_bool_eq in E. rewrite E in Hh'. inversion Hh'. }
  f_equal.
  assert (60 / bpm / inject_Z hop * inject_Z FS
          == 2646000 / (bpm * inject_Z hop))%Q as Heq.
  { unfold FS. change (inject_Z 44100) with 44100%Q.
    field. split; intros H; [rewrite H in Hh'; inversion Hh'
                            | rewrite H in Hb; inversion Hb]. }
  rewrite int_of_floor.
  - apply Qfloor_comp. exact Heq.
  - rewrite Heq. apply Qle_shift_div_l.
    + apply Qmult_lt_0_compat; assumption.
    + rewrite Qmult_0_l. discriminate.
Qed.

(** The floor of [2646000 / p] is at least [z] exactly when [z * p] is at
    most [2646000]. *)
Lemma floor_ge_iff (p : Q) (z : Z) :
  (0 < p)%Q ->
  z <= Qfloor (2646000 / p) <-> (inject_Z z * p <= 2646000)%Q.
Proof.
  intros Hp. split.
  - intros Hz.
    assert (inject_Z z <= 2646000 / p)%Q as H.
    { eapply Qle_trans; [|apply Qfloor_le]. rewrite <- Zle_Qle. exact Hz. }
    apply (Qmult_le_compat_r _ _ p) in H; [|apply Qlt_le_weak; exact Hp].
    eapply Qle_trans; [exact H|].
    assert (2646000 / p * p == 2646000)%Q as ->; [|apply Qle_refl].
    field. intros H0. rewrite H0 in Hp. inversion Hp.
  - intros Hz. apply (Qle_shift_div_l _ _ _ Hp) in Hz.
    apply Qfloor_resp_le in Hz. rewrite Qfloor_Z in Hz. exact Hz.
Qed.

End TempoArithmetic.

Section JoinFacts.
Import Py.

Lemma append_assoc (a b c : string) : (a +:+ b) +:+ c = a +:+ (b +:+ c).
Proof.
  induction a as [|x a IH]; [reflexivity|].
  change (String x ((a +:+ b) +:+ c) = String x (a +:+ b +:+ c)).
  f_equal. exact IH.
Qed.

Lemma endswith_slash_append (a b : string) :
  b <> "" -> endswith_slash (a +:+ b) = endswith_slash b.
Proof.
  intros Hb. induction a as [|x a IH]; [reflexivity|].
  change (endswith_slash (String x (a +:+ b)) = endswith_slash b).
  destruct (a +:+ b) as [|y r] eqn:E.
  - destruct a; [change (b = "") in E; congruence | discriminate E].
  - exact IH.
Qed.

Lemma append_empty_r (a : string) : a +:+ "" = a.
Proof.
  induction a as [|x a IH]; [reflexivity|].
  change (String x (a +:+ "") = String x a). f_equal. exact IH.
Qed.

Lemma concat_empty_cons (x : string) (l : list string) :
  String.concat "" (x :: l) = x +:+ String.concat "" l.
Proof.
  destruct l as [|y l]; [symmetry; apply append_empty_r | reflexivity].
Qed.

(** What goes in front of a relative name when it is joined to [a]. *)
Lemma os_path_join_relative (a b : string) :
  startswith_slash b = false ->
  os_path_join a b
  = (if (bool_decide (a = "") || endswith_slash a)%bool then a else a +:+ "/")
    +:+ b.
Proof.
  intros Hb. unfold os_path_join. rewrite Hb.
  destruct (bool_decide (a = "") || endswith_slash a)%bool;
    [reflexivity | rewrite append_assoc; reflexivity].
Qed.

Lemma os_path_join_inj (a b b' : string) :
  startswith_slash b = false -> startswith_slash b' = false ->
  os_path_join a b = os_path_join a b' -> b = b'.
Proof.
  intros Hb Hb'. rewrite !os_path_join_relative by assumption.
  apply (inj (String.app _)).
Qed.

(** A directory made by joining a relative, non-empty name that does not end
    in a slash gets its entries after a slash. *)
Lemma os_path_join_subdirectory (a b c : string) :
  startswith_slash b = false -> startswith_slash c = false ->
  b <> "" -> endswith_slash b = false ->
  os_path_join (os_path_join a b) c = os_path_join a b +:+ "/" +:+ c.
Proof.
  intros Hb Hc Hne Hend.
  rewrite (os_path_join_relative (os_path_join a b) c Hc).
  assert (endswith_slash (os_path_join a b) = false) as ->.
  { rewrite (os_path_join_relative a b Hb), endswith_slash_append by exact Hne.
    exact Hend. }
  assert (bool_decide (os_path_join a b = "") = false) as ->.
  { apply bool_decide_eq_false_2. rewrite (os_path_join_relative a b Hb).
    intros H. destruct (if (bool_decide (a = "") || endswith_slash a)%bool
                        then a else a +:+ "/").
    - change (b = "") in H. congruence.
    - discriminate H. }
  simpl. apply append_assoc.
Qed.

End JoinFacts.

Section ConstructorFacts.
Import Py Transcriber.

Context {scale_table scale beat_positions positions audio : Type}.
Context {track qtrack freq_row midi_seq midi_array : Type}.
Context (os_path_basename : string -> string)
        (os_path_splitext : string -> string * string)
        (read_scale_frequencies : outcome scale_table)
        (get_track_scale : string -> string -> scale_table -> outcome scale)
        (get_chorus_beat_positions : string -> outcome beat_positions)
        (get_quarter_beat_positions : beat_positions -> positions)
        (np_load : string -> outcome audio)
        (pYIN_F0 : audio -> Q -> Z -> Z -> Q -> outcome (track * track))
        (adaptive : track -> scale -> positions -> bool -> Z -> Q -> qtrack)
        (uniform : track -> scale -> Q -> qtrack)
        (getitem1 : qtrack -> freq_row)
        (frequency_to_midi_sequence : freq_row -> Z -> midi_seq)
        (midi_sequence_to_midi_array : midi_seq -> Z -> Z -> Z -> midi_array).

Local Abbreviation obj := (BassLineTranscriber scale positions audio track qtrack).
Local Abbreviation init :=
  (init scale_table scale beat_positions positions audio track qtrack midi_array
        os_path_basename os_path_splitext read_scale_frequencies
        get_track_scale get_chorus_beat_positions get_quarter_beat_positions
        np_load).
Local Abbreviation extract_pitch_track :=
  (extract_pitch_track scale positions audio track qtrack midi_array pYIN_F0).
Local Abbreviation quantize_pitch_track :=
  (quantize_pitch_track scale positions audio track qtrack midi_array
                        adaptive uniform).
Local Abbreviation create_bass_line_MIDI_file :=
  (create_bass_line_MIDI_file scale positions audio track qtrack freq_row
     midi_seq midi_array getitem1 frequency_to_midi_sequence
     midi_sequence_to_midi_array).

(** Everything a successful construction went through, and the object it
    built. *)
Lemma init_inv path bpm key_arg M_ N hop sc (t : obj) :
  result (init path bpm key_arg M_ N hop sc) = Return t ->
  exists ks table s bd L ff cbp bl,
    unpack2 (split " " key_arg) = Return ks
    /\ read_scale_frequencies = Return table
    /\ get_track_scale (fst ks) (snd ks) table = Return s
    /\ truediv 60 bpm = Return bd
    /\ F0_sample_length_of bd hop = Return L
    /\ frame_factor_of L = Return ff
    /\ get_chorus_beat_positions
         (os_path_join OUTPUT_DIR
            (fst (os_path_splitext (os_path_basename path)))) = Return cbp
    /\ np_load path = Return bl
    /\ trace (init path bpm key_arg M_ N hop sc)
       = [Print ("frame length: " +:+ str FRAME_LEN);
          Print ("F0_sample_length: " +:+ str L);
          Print ("frame factor: " +:+ str ff)]
    /\ t = mk _ _ _ _ _
             (fst (os_path_splitext (os_path_basename path)))
             FS (fst ks) (snd ks) s (decimation_rates M_) N bpm bd ff
             (os_path_join OUTPUT_DIR
                (fst (os_path_splitext (os_path_basename path))))
             (os_path_join
                (os_path_join OUTPUT_DIR
                   (fst (os_path_splitext (os_path_basename path))))
                "F0_estimate")
             (os_path_join
                (os_path_join OUTPUT_DIR
                   (fst (os_path_splitext (os_path_basename path))))
                "pitch_track")
             (os_path_join
                (os_path_join OUTPUT_DIR
                   (fst (os_path_splitext (os_path_basename path))))
                "quantized_pitch_track")
             (os_path_join
                (os_path_join OUTPUT_DIR
                   (fst (os_path_splitext (os_path_basename path))))
                "midi")
             (get_quarter_beat_positions cbp) bl sc None None None.
Proof.
  unfold Transcriber.init.
  destruct (unpack2 _) as [ks|e]; [|discriminate]. cbn [lift bind].
  destruct read_scale_frequencies as [table|e]; [|discriminate]. cbn [lift bind].
  destruct (get_track_scale _ _ _) as [s|e] eqn:Es; [|discriminate].
  cbn [lift bind].
  destruct (truediv 60 bpm) as [bd|e]; [|discriminate]. cbn [lift bind].
  destruct (F0_sample_length_of bd hop) as [L|e] eqn:EL; [|discriminate].
  cbn [lift bind].
  destruct (frame_factor_of L) as [ff|e] eqn:Eff; [|discriminate].
  cbn [lift bind emit].
  destruct (get_chorus_beat_positions _) as [cbp|e] eqn:Ec; [|discriminate].
  cbn [lift bind].
  destruct (np_load path) as [bl|e]; [|discriminate].
  cbn. intros [= <-].
  exists ks, table, s, bd, L, ff, cbp, bl.
  repeat (split; [reflexivity || assumption|]). reflexivity.
Qed.

(** X1.  A successful construction split the key argument at its only space:
    [key] and [scale_type] contain no space, and joined by one they are the
    argument. *)
Theorem init_key_round_trip path bpm key_arg M_ N hop sc (t : obj) :
  result (init path bpm key_arg M_ N hop sc) = Return t ->
  key_arg = key t +:+ " " +:+ scale_type t
  /\ ~ In " "%char (list_ascii_of_string (key t))
  /\ ~ In " "%char (list_ascii_of_string (scale_type t)).
Proof.
  intros Hinit.
  destruct (init_inv _ _ _ _ _ _ _ _ Hinit)
    as (ks & table & s & bd & L & ff & cbp & bl & Hks & _ & _ & _ & _ & _ & _
        & _ & _ & ->).
  simpl.
  pose proof (concat_split " " key_arg) as Hjoin.
  pose proof (split_no_sep " " key_arg) as Hno.
  destruct (split " " key_arg) as [|a [|b [|c l]]]; try discriminate.
  injection Hks as <-. simpl in *.
  split; [symmetry; exact Hjoin|].
  split; apply Hno; [left|right; left]; reflexivity.
Qed.

(** X2.  A key argument that does not contain exactly one space makes the
    constructor raise ValueError before it prints anything. *)
Theorem init_key_without_one_space path bpm key_arg M_ N hop sc :
  count_occ Ascii.ascii_dec (list_ascii_of_string key_arg) " "%char <> 1%nat ->
  exists msg,
    init path bpm key_arg M_ N hop sc = ([], Raise (ValueError msg)).
Proof.
  intros Hcount. pose proof (length_split " " key_arg) as Hlen.
  unfold Transcriber.init.
  destruct (split " " key_arg) as [|a [|b [|c l]]]; simpl in *.
  - eexists; reflexivity.
  - eexists; reflexivity.
  - congruence.
  - eexists; reflexivity.
Qed.

(** X3.  With the key and the scale in order, a tempo of zero or a hop factor of
    zero makes the constructor raise ZeroDivisionError before it prints
    anything. *)
Theorem init_zero_tempo_or_hop path bpm key_arg M_ N hop sc ks table s :
  unpack2 (split " " key_arg) = Return ks ->
  read_scale_frequencies = Return table ->
  get_track_scale (fst ks) (snd ks) table = Return s ->
  (bpm == 0)%Q \/ hop = 0 ->
  init path bpm key_arg M_ N hop sc
  = ([], Raise (ZeroDivisionError "float division by zero")).
Proof.
  intros Hks Htable Hs Hzero.
  unfold Transcriber.init. rewrite Hks. cbn [lift bind].
  rewrite Htable. cbn [lift bind]. rewrite Hs. cbn [lift bind].
  unfold truediv at 1.
  destruct (Qeq_bool bpm 0) eqn:E; [reflexivity|].
  destruct Hzero as [Hb | ->].
  - apply Qeq_eq_bool in Hb. congruence.
  - cbn [lift bind]. reflexivity.
Qed.



(** What [create_bass_line_MIDI_file] does once a quantized track exists. *)
Lemma create_bass_line_MIDI_file_events (self : obj) (q : qtrack) :
  pitch_track_quantized self = Some q ->
  create_bass_line_MIDI_file self
  = (Print "Creating the MIDI file."
       :: flat_map
            (export_events midi_sequence_to_midi_array self
               (frequency_to_midi_sequence (getitem1 q) (silence_code self)))
            (M self),
     Return tt).
Proof.
  intros Hq. unfold Transcriber.create_bass_line_MIDI_file. rewrite Hq.
  cbn [getattr lift emit bind app].
  rewrite (for_each_events
             (export_events midi_sequence_to_midi_array self
                (frequency_to_midi_sequence (getitem1 q) (silence_code self))))
    by (intros m; reflexivity).
  reflexivity.
Qed.

(** X6.  The stages must run in order.  On a freshly constructed object
    [quantize_pitch_track] with a valid scheme raises AttributeError, and
    [create_bass_line_MIDI_file] raises AttributeError after its first
    print, before any directory or file is made; the latter still holds
    after [extract_pitch_track]. *)
Theorem stages_out_of_order path bpm key_arg M_ N hop sc (t : obj)
    filter_unk eps scheme thr :
  result (init path bpm key_arg M_ N hop sc) = Return t ->
  scheme = "adaptive" \/ scheme = "uniform" ->
  quantize_pitch_track t filter_unk eps scheme
  = ([], Raise (AttributeError
       "'BassLineTranscriber' object has no attribute 'pitch_track'"))
  /\ create_bass_line_MIDI_file t
     = ([Print "Creating the MIDI file."],
        Raise (AttributeError
          "'BassLineTranscriber' object has no attribute 'pitch_track_quantized'"))
  /\ match result (extract_pitch_track t thr) with
     | Return t1 =>
         create_bass_line_MIDI_file t1
         = ([Print "Creating the MIDI file."],
            Raise (AttributeError
              "'BassLineTranscriber' object has no attribute 'pitch_track_quantized'"))
     | Raise _ => True
     end.
Proof.
  intros Hinit Hscheme.
  destruct (init_Return _ _ _ _ _ _ _ _ _ _ _ _ _ _ _ Hinit)
    as (bd & L & _ & _ & _ & _ & _ & Hpt & Hq).
  split; [|split].
  - destruct Hscheme as [-> | ->].
    + rewrite quantize_adaptive, Hpt. reflexivity.
    + rewrite quantize_uniform, Hpt. reflexivity.
  - unfold Transcriber.create_bass_line_MIDI_file. rewrite Hq. reflexivity.
  - destruct (result (extract_pitch_track t thr)) as [t1|e] eqn:E; [|exact I].
    destruct (extract_pitch_track_Return pYIN_F0 _ _ _ E) as (est & pt & ->).
    unfold Transcriber.create_bass_line_MIDI_file. simpl.
    rewrite Hq. reflexivity.
Qed.

(** X7.  The whole transcription.  Once the object is constructed and the pitch
    estimator returns, the three stages in order return for both schemes:
    the object holds the estimator's two outputs and the track the chosen
    strategy computes from the second one with the constructor's
    [frame_factor], and one MIDI file is written per decimation rate. *)
Theorem stages_in_order path bpm key_arg M_ N hop sc (t : obj)
    thr est pt filter_unk eps scheme :
  result (init path bpm key_arg M_ N hop sc) = Return t ->
  pYIN_F0 (bass_line t) (beat_duration t) 32 (N_bars t) thr = Return (est, pt) ->
  scheme = "adaptive" \/ scheme = "uniform" ->
  exists t2,
    result (let* t1 := extract_pitch_track t thr in
            let* t2 := quantize_pitch_track t1 filter_unk eps scheme in
            do* create_bass_line_MIDI_file t2 in
            ret t2) = Return t2
    /\ F0_estimate t2 = Some est
    /\ pitch_track t2 = Some pt
    /\ pitch_track_quantized t2
       = Some (if bool_decide (scheme = "adaptive")
               then adaptive pt (track_scale t) (quarter_beat_positions t)
                      filter_unk (frame_factor t) eps
               else uniform pt (track_scale t) eps)
    /\ length (List.filter is_Create_MIDI_file
                 (trace (let* t1 := extract_pitch_track t thr in
                         let* t2 := quantize_pitch_track t1 filter_unk eps scheme in
                         do* create_bass_line_MIDI_file t2 in
                         ret t2)))
       = length (decimation_rates M_).
Proof.
  intros Hinit HpYIN Hscheme.
  destruct (init_Return _ _ _ _ _ _ _ _ _ _ _ _ _ _ _ Hinit)
    as (bd & L & _ & _ & _ & _ & HM & _ & _).
  set (q := if bool_decide (scheme = "adaptive")
            then adaptive pt (track_scale t) (quarter_beat_positions t)
                   filter_unk (frame_factor t) eps
            else uniform pt (track_scale t) eps).
  set (t1 := set_pitch_tracks t est pt).
  set (t2 := set_pitch_track_quantized t1 q).
  assert (extract_pitch_track t thr
          = ([Print "Starting the transcription process.";
              Call_pYIN_F0 (beat_duration t) 32 (N_bars t) thr], Return t1))
    as Hext.
  { unfold Transcriber.extract_pitch_track. rewrite HpYIN. reflexivity. }
  assert (quantize_pitch_track t1 filter_unk eps scheme = ([], Return t2))
    as Hquant.
  { destruct Hscheme as [-> | ->].
    - rewrite quantize_adaptive. reflexivity.
    - rewrite quantize_uniform. reflexivity. }
  pose proof (create_bass_line_MIDI_file_events t2 q eq_refl) as Hcreate.
  exists t2.
  rewrite Hext. cbn [bind]. rewrite Hquant. cbn [bind].
  rewrite Hcreate. cbn [bind ret result snd trace fst app].
  split; [reflexivity|]. split; [reflexivity|]. split; [reflexivity|].
  split; [reflexivity|].
  rewrite app_nil_r. cbn [List.filter is_Create_MIDI_file].
  rewrite count_export_events. rewrite <- HM. reflexivity.
Qed.

(** X8.  The output directories of a constructed object: the directories of the
    F0 estimate, of the pitch track, of the quantized pitch track and of the
    MIDI files are four different directories, each the output directory
    followed by a slash and its name, and the MIDI files of decimation rate
    [m] go to the MIDI directory followed by a slash and [str(m)]. *)
Theorem output_directories path bpm key_arg M_ N hop sc (t : obj) :
  result (init path bpm key_arg M_ N hop sc) = Return t ->
  NoDup [F0_estimate_dir t; pitch_track_dir t; quantized_pitch_track_dir t;
         midi_dir t]
  /\ (forall m : Z,
        os_path_join (midi_dir t) (str m) = midi_dir t +:+ "/" +:+ str m)
  /\ (output_dir t <> "" -> endswith_slash (output_dir t) = false ->
      F0_estimate_dir t = output_dir t +:+ "/F0_estimate"
      /\ pitch_track_dir t = output_dir t +:+ "/pitch_track"
      /\ quantized_pitch_track_dir t = output_dir t +:+ "/quantized_pitch_track"
      /\ midi_dir t = output_dir t +:+ "/midi").
Proof.
  intros Hinit.
  destruct (init_inv _ _ _ _ _ _ _ _ Hinit)
    as (ks & table & s & bd & L & ff & cbp & bl & _ & _ & _ & _ & _ & _ & _
        & _ & _ & ->).
  cbn [F0_estimate_dir pitch_track_dir quantized_pitch_track_dir midi_dir
       output_dir].
  set (od := os_path_join OUTPUT_DIR _).
  split; [|split].
  - repeat (apply NoDup_cons; split);
      [| | | | apply NoDup_nil; exact I];
      rewrite ?elem_of_cons, ?elem_of_nil;
      intros H; repeat destruct H as [H|H]; try exact H;
      apply os_path_join_inj in H; try reflexivity; discriminate H.
  - intros m. apply os_path_join_subdirectory;
      [reflexivity | apply str_no_slash | discriminate | reflexivity].
  - intros Hne Hend.
    rewrite !os_path_join_relative by reflexivity.
    rewrite Hend. rewrite (bool_decide_eq_false_2 _ Hne). simpl.
    rewrite !append_assoc. repeat split; reflexivity.
Qed.

End ConstructorFacts.

Section ExportFacts.
Import Py Transcriber.

Context {scale positions audio track qtrack midi_array : Type}.
Context (pYIN_F0 : audio -> Q -> Z -> Z -> Q -> outcome (track * track))
        (adaptive : track -> scale -> positions -> bool -> Z -> Q -> qtrack)
        (uniform : track -> scale -> Q -> qtrack).

Local Abbreviation obj := (BassLineTranscriber scale positions audio track qtrack).
Local Abbreviation extract_pitch_track :=
  (extract_pitch_track scale positions audio track qtrack midi_array pYIN_F0).
Local Abbreviation quantize_pitch_track :=
  (quantize_pitch_track scale positions audio track qtrack midi_array
                        adaptive uniform).

(** X9.  The exports follow the stages.  After [extract_pitch_track] the first
    output of the estimator is exported to the F0 estimate directory and the
    second to the pitch track directory, while exporting the quantized track
    raises AttributeError; after [quantize_pitch_track] with a valid scheme
    the track just stored is exported to its directory.  Each export is
    filed under the title of the track. *)
Theorem exports_follow_stages (self : obj) thr est pt filter_unk eps scheme :
  pYIN_F0 (bass_line self) (beat_duration self) 32 (N_bars self) thr
  = Return (est, pt) ->
  pitch_track_quantized self = None ->
  scheme = "adaptive" \/ scheme = "uniform" ->
  exists t1 t2 q,
    result (extract_pitch_track self thr) = Return t1
    /\ result (quantize_pitch_track t1 filter_unk eps scheme) = Return t2
    /\ pitch_track_quantized t2 = Some q
    /\ Exports.export_F0_estimate t1
       = ([Exports.Print "Exporting the F0 estimate.";
           Exports.Export_function (Exports.F0_array est)
             (F0_estimate_dir self) (title self)],
          Return tt)
    /\ Exports.export_pitch_track t1
       = ([Exports.Export_function (Exports.F0_array pt)
             (pitch_track_dir self) (title self)],
          Return tt)
    /\ Exports.export_quantized_pitch_track t1
       = ([], Raise (AttributeError
            "'BassLineTranscriber' object has no attribute 'pitch_track_quantized'"))
    /\ Exports.export_quantized_pitch_track t2
       = ([Exports.Export_function (Exports.Quantized_array q)
             (quantized_pitch_track_dir self) (title self)],
          Return tt).
Proof.
  intros HpYIN Hnone Hscheme.
  exists (set_pitch_tracks self est pt).
  exists (set_pitch_track_quantized (set_pitch_tracks self est pt)
            (if bool_decide (scheme = "adaptive")
             then adaptive pt (track_scale self) (quarter_beat_positions self)
                    filter_unk (frame_factor self) eps
             else uniform pt (track_scale self) eps)).
  eexists.
  split.
  { unfold Transcriber.extract_pitch_track. rewrite HpYIN. reflexivity. }
  split.
  { destruct Hscheme as [-> | ->]; reflexivity. }
  split; [reflexivity|].
  split; [reflexivity|].
  split; [reflexivity|].
  split.
  { unfold Exports.export_quantized_pitch_track. simpl. rewrite Hnone.
    reflexivity. }
  reflexivity.
Qed.

End ExportFacts.

(** * Further properties of the extractor *)

Section LoggerFacts.
Import Py Extractor BasslineExtraction.

Context (format_exception : exn -> list string).

Local Abbreviation exception_logger := (exception_logger format_exception).

Lemma exception_logger_cases
    (directories : gmap string (gmap string string)) ex date title text_id w :
  (exists d w',
     exception_logger directories ex date title text_id w = (Return tt, w')
     /\ stdout w' = stdout w /\ dirs w' = dirs w
     /\ files w' !! os_path_join d (date +:+ "_" +:+ text_id +:+ ".txt")
        = Some (default ""
                  (files w !! os_path_join d (date +:+ "_" +:+ text_id +:+ ".txt"))
                +:+ (title +:+ nl +:+ String.concat "" (format_exception ex)
                     +:+ nl +:+ str_mul "--" 40 +:+ nl))
     /\ forall p, p <> os_path_join d (date +:+ "_" +:+ text_id +:+ ".txt") ->
                  files w' !! p = files w !! p)
  \/ (exists e,
        exception_logger directories ex date title text_id w = (Raise e, w)
        /\ (isinstance e "KeyError" = true
            \/ isinstance e "FileNotFoundError" = true)).
Proof.
  unfold BasslineExtraction.exception_logger, cbind, clift, getitem.
  destruct (directories !! "extraction") as [extraction|];
    [|right; eexists; split; [reflexivity|left; reflexivity]].
  destruct (extraction !! "exceptions") as [d|];
    [|right; eexists; split; [reflexivity|left; reflexivity]].
  unfold append_file.
  destruct (bool_decide _);
    [|right; eexists; split; [reflexivity|right; reflexivity]].
  left. exists d. eexists. split; [reflexivity|]. cbn [stdout dirs files].
  split; [reflexivity|]. split; [reflexivity|]. split.
  - apply lookup_insert_eq.
  - intros p Hp. apply lookup_insert_ne. congruence.
Qed.



End LoggerFacts.

Section HandlerFacts.
Import Py Extractor BasslineExtraction.

Context {track_dicts separator extractor audio beat_positions : Type}.
Context (format_exception : exn -> list string)
        (BasslineExtractor :
           string -> gmap string (gmap string string) -> track_dicts ->
           separator -> Z -> Z -> cmd extractor)
        (track_of : extractor -> audio)
        (estimate_beat_positions : extractor -> audio -> cmd beat_positions)
        (export_beat_positions : extractor -> cmd unit)
        (estimate_chorus : extractor -> beat_positions -> Z -> cmd unit)
        (export_chorus_start_beat_idx : extractor -> cmd unit)
        (export_chorus_beat_positions : extractor -> cmd unit)
        (extract_chorus : extractor -> cmd audio)
        (export_chorus : extractor -> cmd unit).

Local Abbreviation extraction_body :=
  (extraction_body track_dicts separator extractor audio beat_positions
     BasslineExtractor track_of estimate_beat_positions export_beat_positions
     estimate_chorus export_chorus_start_beat_idx export_chorus_beat_positions
     extract_chorus export_chorus).
Local Abbreviation handler := (handler format_exception).
Local Abbreviation extract_single_bassline :=
  (extract_single_bassline track_dicts separator extractor audio beat_positions
     format_exception
     BasslineExtractor track_of estimate_beat_positions export_beat_positions
     estimate_chorus export_chorus_start_beat_idx export_chorus_beat_positions
     extract_chorus export_chorus).

(** What the handlers do with an exception that is not a
    KeyboardInterrupt: log it after a print, or let it pass when no clause
    matches. *)
Lemma handler_cases directories date title e w :
  isinstance e "KeyboardInterrupt" = false ->
  (exists msg,
     handler directories date title e w
     = BasslineExtraction.exception_logger format_exception directories e date
         title (text_id_of e)
         (mk_world (stdout w ++ [msg]) (dirs w) (files w)))
  \/ (isinstance e "KeyError" = false
      /\ isinstance e "FileNotFoundError" = false
      /\ isinstance e "RuntimeError" = false
      /\ isinstance e "Exception" = false
      /\ handler directories date title e w = (Raise e, w)).
Proof.
  intros Hki. unfold BasslineExtraction.handler, text_id_of. rewrite Hki.
  destruct (isinstance e "KeyError"); [left; eexists; reflexivity|].
  destruct (isinstance e "FileNotFoundError"); [left; eexists; reflexivity|].
  destruct (isinstance e "RuntimeError"); [left; eexists; reflexivity|].
  destruct (isinstance e "Exception"); [left; eexists; reflexivity|].
  right. repeat split; reflexivity.
Qed.


End HandlerFacts.

(** * Properties of the batch entry points *)

Section LoopFacts.
Import Py Extractor Main.

(** A loop over two lists in a row. *)
Lemma cfor_each_app {A} (xs ys : list A) (body : A -> cmd unit) (w : world) :
  cfor_each (xs ++ ys) body w
  = match cfor_each xs body w with
    | (Return _, w1) => cfor_each ys body w1
    | (Raise e, w1) => (Raise e, w1)
    end.
Proof.
  revert w. induction xs as [|x xs IH]; intros w; simpl.
  - reflexivity.
  - unfold cbind. destruct (body x w) as [[[]|e] w1]; [apply IH|reflexivity].
Qed.

(** A loop ends at the first iteration that raises. *)
Lemma cfor_each_raise {A} (pre post : list A) (x : A) (body : A -> cmd unit)
    (w w1 w2 : world) (e : exn) :
  cfor_each pre body w = (Return tt, w1) ->
  body x w1 = (Raise e, w2) ->
  cfor_each (pre ++ x :: post) body w = (Raise e, w2).
Proof.
  intros Hpre Hx. rewrite cfor_each_app, Hpre. simpl.
  unfold cbind. rewrite Hx. reflexivity.
Qed.

(** [l[idx:]] for an index inside the list drops that many elements. *)
Lemma slice_from_drop {A} (idx : nat) (l : list A) :
  slice_from (Z.of_nat idx) l = drop idx l.
Proof.
  unfold slice_from. rewrite (proj2 (Z.leb_le 0 (Z.of_nat idx))) by lia.
  rewrite Nat2Z.id. reflexivity.
Qed.

(** [l[-k:]] is the last [k] elements, or all of them. *)
Lemma slice_from_negative {A} (k : nat) (l : list A) :
  (0 < k)%nat -> slice_from (- Z.of_nat k) l = drop (length l - k) l.
Proof.
  intros Hk. unfold slice_from.
  rewrite (proj2 (Z.leb_gt 0 (- Z.of_nat k))) by lia.
  f_equal. lia.
Qed.

End LoopFacts.

Section MainFacts.
Import Py Extractor Main.

Context {track_dicts separator extractor audio beat_positions : Type}.
Context {metadata simple_extractor : Type}.
Context (format_exception : exn -> list string)
        (BasslineExtractor :
           string -> gmap string (gmap string string) -> track_dicts ->
           separator -> Z -> Z -> cmd extractor)
        (track_of : extractor -> audio)
        (estimate_beat_positions : extractor -> audio -> cmd beat_positions)
        (export_beat_positions : extractor -> cmd unit)
        (estimate_chorus : extractor -> beat_positions -> Z -> cmd unit)
        (export_chorus_start_beat_idx : extractor -> cmd unit)
        (export_chorus_beat_positions : extractor -> cmd unit)
        (extract_chorus : extractor -> cmd audio)
        (export_chorus : extractor -> cmd unit)
        (strftime : string -> cmd string)
        (time_time : cmd Q)
        (strftime_gmtime : string -> Q -> string)
        (get_directories : string -> cmd (gmap string (gmap string string)))
        (init_folders : gmap string string -> cmd unit)
        (read_metadata :
           gmap string (gmap string string) -> string ->
           cmd (metadata * track_dicts * list string))
        (load_pretrained : string -> cmd separator)
        (SimpleExtractor :
           string -> gmap string (gmap string string) -> track_dicts ->
           separator -> cmd simple_extractor)
        (extract_and_export_bassline : simple_extractor -> cmd unit).

Local Abbreviation extraction_body :=
  (BasslineExtraction.extraction_body track_dicts separator extractor audio
     beat_positions BasslineExtractor track_of estimate_beat_positions
     export_beat_positions estimate_chorus export_chorus_start_beat_idx
     export_chorus_beat_positions extract_chorus export_chorus).
Local Abbreviation extract_single_bassline :=
  (extract_single_bassline track_dicts separator extractor audio beat_positions
     format_exception BasslineExtractor track_of estimate_beat_positions
     export_beat_positions estimate_chorus export_chorus_start_beat_idx
     export_chorus_beat_positions extract_chorus export_chorus).
Local Abbreviation process_title :=
  (process_title track_dicts separator extractor audio beat_positions
     format_exception BasslineExtractor track_of estimate_beat_positions
     export_beat_positions estimate_chorus export_chorus_start_beat_idx
     export_chorus_beat_positions extract_chorus export_chorus).
Local Abbreviation prepare :=
  (prepare track_dicts metadata strftime get_directories init_folders
           read_metadata).
Local Abbreviation main :=
  (main track_dicts separator extractor audio beat_positions metadata
     format_exception BasslineExtractor track_of estimate_beat_positions
     export_beat_positions estimate_chorus export_chorus_start_beat_idx
     export_chorus_beat_positions extract_chorus export_chorus
     strftime time_time strftime_gmtime get_directories init_folders
     read_metadata load_pretrained).
Local Abbreviation separate_title :=
  (separate_title track_dicts separator simple_extractor SimpleExtractor
     extract_and_export_bassline).


(** X14.  A KeyboardInterrupt ends the batch.  When the tracks before [title]
    were processed and the extraction of [title] raises a KeyboardInterrupt,
    the loop of [main] raises SystemExit in the world the extraction left:
    [title] is not recorded as completed and no later track is touched. *)
Theorem main_loop_stops_on_interrupt
    (directories : gmap string (gmap string string)) tds date sep name
    (pre post : list string) title w w1 w2 e :
  cfor_each pre (process_title directories tds date sep name) w
  = (Return tt, w1) ->
  extraction_body title directories tds sep 44100 4
    (mk_world (stdout w1 ++ [nl +:+ title]) (dirs w1) (files w1))
  = (Raise e, w2) ->
  isinstance e "KeyboardInterrupt" = true ->
  cfor_each (pre ++ title :: post) (process_title directories tds date sep name) w
  = (Raise SystemExit, w2).
Proof.
  intros Hpre Hbody Hki.
  apply (cfor_each_raise pre post title _ w w1 w2 SystemExit Hpre).
  unfold Main.process_title, Main.extract_single_bassline,
    BasslineExtraction.extract_single_bassline.
  unfold cbind at 1. unfold print at 1. unfold cbind at 1.
  unfold try_except. rewrite Hbody.
  unfold BasslineExtraction.handler. rewrite Hki. reflexivity.
Qed.

(** X15.  [separate_from_chorus] has no handler: when the tracks before [title]
    were processed and constructing the extractor of [title] raises any
    exception, the loop raises that exception in the world the constructor
    left, and no later track is touched. *)
Theorem separate_loop_stops_at_first_exception
    (directories : gmap string (gmap string string)) tds sep
    (pre post : list string) title w w1 w2 e :
  cfor_each pre (separate_title directories tds sep) w = (Return tt, w1) ->
  SimpleExtractor title directories tds sep
    (mk_world (stdout w1 ++ [nl +:+ title]) (dirs w1) (files w1))
  = (Raise e, w2) ->
  cfor_each (pre ++ title :: post) (separate_title directories tds sep) w
  = (Raise e, w2).
Proof.
  intros Hpre Hctor.
  apply (cfor_each_raise pre post title _ w w1 w2 e Hpre).
  unfold Main.separate_title.
  unfold cbind at 1. unfold print at 1. unfold cbind at 1.
  rewrite Hctor. reflexivity.
Qed.

(** The loop of [main] when every extraction returns: the titles are
    appended to the completed file in order. *)
Lemma main_loop_records
    (directories : gmap string (gmap string string)) tds date sep name
    (base : gset string) (titles : list string) :
  os_path_dirname (completed_file date name) ∈ base ->
  (forall title w,
     title ∈ titles -> base ⊆ dirs w ->
     exists w',
       extract_single_bassline title directories tds date sep 44100 4 w
       = (Return tt, w')
       /\ base ⊆ dirs w'
       /\ files w' !! completed_file date name
          = files w !! completed_file date name) ->
  forall w,
    base ⊆ dirs w ->
    exists w',
      cfor_each titles (process_title directories tds date sep name) w
      = (Return tt, w')
      /\ base ⊆ dirs w'
      /\ default "" (files w' !! completed_file date name)
         = default "" (files w !! completed_file date name)
           +:+ String.concat "" (map (fun t => t +:+ nl) titles).
Proof.
  intros Hcdir. induction titles as [|title titles IH]; intros Hframe w Hw.
  - exists w. split; [reflexivity|]. split; [exact Hw|].
    cbn [map String.concat]. symmetry. apply append_empty_r.
  - destruct (Hframe title
                (mk_world (stdout w ++ [nl +:+ title]) (dirs w) (files w)))
      as (w1 & Hex & Hw1 & Hfiles); [left | exact Hw |].
    set (w2 := mk_world (stdout w1) (dirs w1)
                 (<[completed_file date name :=
                      default "" (files w1 !! completed_file date name)
                      +:+ (title +:+ nl)]> (files w1))).
    assert (process_title directories tds date sep name title w
            = (Return tt, w2)) as Hstep.
    { unfold Main.process_title.
      unfold cbind at 1. unfold print at 1. unfold cbind at 1.
      rewrite Hex. unfold append_file.
      rewrite bool_decide_eq_true_2; [reflexivity|].
      apply Hw1. exact Hcdir. }
    destruct (IH (fun t w0 Ht => Hframe t w0 (list_elem_of_further _ _ _ Ht)) w2)
      as (w' & Hloop & Hw' & Hcontent); [exact Hw1|].
    exists w'. split.
    + cbn [cfor_each]. unfold cbind at 1. rewrite Hstep. exact Hloop.
    + split; [exact Hw'|].
      rewrite Hcontent. unfold w2. cbn [files map].
      rewrite lookup_insert_eq. cbn [default]. rewrite Hfiles. cbn [files].
      rewrite concat_empty_cons. apply append_assoc.
Qed.

(** X16.  A run of [main] in which every extraction returns (the track was
    extracted, or its exception was logged) and leaves the completed file
    alone: starting at index [idx] of the titles, every title is appended to
    the completed file, in order, after what the file held, and the run
    ends by printing the total time. *)
Theorem main_records_titles path name idx w0 w1 w2 w3
    (directories : gmap string (gmap string string)) tds
    (titles : list string) date sep t0 :
  prepare path name w0 = (Return (directories, tds, titles, date), w1) ->
  load_pretrained "demucs_extra" w1 = (Return sep, w2) ->
  time_time w2 = (Return t0, w3) ->
  (forall w, exists t, time_time w = (Return t, w)) ->
  os_path_dirname (completed_file date name) ∈ dirs w3 ->
  (forall title w,
     title ∈ slice_from idx titles -> dirs w3 ⊆ dirs w ->
     exists w',
       extract_single_bassline title directories tds date sep 44100 4 w
       = (Return tt, w')
       /\ dirs w3 ⊆ dirs w'
       /\ files w' !! completed_file date name
          = files w !! completed_file date name) ->
  exists w' elapsed,
    main path name idx w0 = (Return tt, w')
    /\ default "" (files w' !! completed_file date name)
       = default "" (files w3 !! completed_file date name)
         +:+ String.concat "" (map (fun t => t +:+ nl) (slice_from idx titles))
    /\ last (stdout w') = Some ("Total Run: " +:+ elapsed).
Proof.
  intros Hprep Hload Htime Hclock Hcdir Hframe.
  destruct (main_loop_records directories tds date sep name (dirs w3)
              (slice_from idx titles) Hcdir Hframe w3)
    as (w4 & Hloop & _ & Hcontent); [reflexivity|].
  destruct (Hclock w4) as [t1 Hnow].
  exists (mk_world
            (stdout w4 ++ ["Total Run: "
                           +:+ strftime_gmtime "%H:%M:%S" (t1 - t0)%Q])
            (dirs w4) (files w4)).
  exists (strftime_gmtime "%H:%M:%S" (t1 - t0)%Q).
  split; [|split].
  - unfold Main.main. unfold cbind at 1. rewrite Hprep.
    unfold cbind at 1. rewrite Hload.
    unfold cbind at 1. rewrite Htime.
    unfold cbind at 1. rewrite Hloop.
    unfold cbind at 1. rewrite Hnow. reflexivity.
  - exact Hcontent.
  - cbn [stdout]. apply last_snoc.
Qed.

End MainFacts.

(** * The further properties on a track *)

Section SongFacts.
Import Py Transcriber.

Local Abbreviation run_init :=
  (Pipeline.init "data/bass/song.npy" 120 "A min" (M_seq [1; 2]) 4 64 0).

Lemma init_key_round_trip_witness :
  "A min" = key Pipeline.song0 +:+ " " +:+ scale_type Pipeline.song0
  /\ ~ In " "%char (list_ascii_of_string (key Pipeline.song0))
  /\ ~ In " "%char (list_ascii_of_string (scale_type Pipeline.song0)).
Proof.
  apply (init_key_round_trip (midi_array := list (Z * Z * Z))
           Pipeline.os_path_basename Pipeline.os_path_splitext
           Pipeline.read_scale_frequencies Pipeline.get_track_scale
           Pipeline.get_chorus_beat_positions Pipeline.get_quarter_beat_positions
           Pipeline.np_load
           "data/bass/song.npy" 120 "A min" (M_seq [1; 2]) 4 64 0
           Pipeline.song0).
  vm_compute. reflexivity.
Defined.

Lemma init_key_without_one_space_witness :
  exists msg,
    Pipeline.init "data/bass/song.npy" 120 "A harmonic minor" (M_seq [1; 2])
      4 64 0
    = ([], Raise (ValueError msg)).
Proof.
  apply (init_key_without_one_space (midi_array := list (Z * Z * Z))
           Pipeline.os_path_basename Pipeline.os_path_splitext
           Pipeline.read_scale_frequencies Pipeline.get_track_scale
           Pipeline.get_chorus_beat_positions Pipeline.get_quarter_beat_positions
           Pipeline.np_load
           "data/bass/song.npy" 120 "A harmonic minor" (M_seq [1; 2]) 4 64 0).
  vm_compute. discriminate.
Defined.

Lemma init_zero_tempo_or_hop_witness :
  Pipeline.init "data/bass/song.npy" 120 "A min" (M_seq [1; 2]) 4 0 0
  = ([], Raise (ZeroDivisionError "float division by zero")).
Proof.
  apply (init_zero_tempo_or_hop (midi_array := list (Z * Z * Z))
           Pipeline.os_path_basename Pipeline.os_path_splitext
           Pipeline.read_scale_frequencies Pipeline.get_track_scale
           Pipeline.get_chorus_beat_positions Pipeline.get_quarter_beat_positions
           Pipeline.np_load
           "data/bass/song.npy" 120 "A min" (M_seq [1; 2]) 4 0 0
           ("A", "min") [("A", "min", Pipeline.A_minor)] Pipeline.A_minor).
  - reflexivity.
  - reflexivity.
  - reflexivity.
  - right. reflexivity.
Defined.



Lemma stages_out_of_order_witness :
  Pipeline.quantize_pitch_track Pipeline.song0 false 2 "uniform"
  = ([], Raise (AttributeError
       "'BassLineTranscriber' object has no attribute 'pitch_track'"))
  /\ Pipeline.create_bass_line_MIDI_file Pipeline.song0
     = ([Print "Creating the MIDI file."],
        Raise (AttributeError
          "'BassLineTranscriber' object has no attribute 'pitch_track_quantized'"))
  /\ match result (Pipeline.extract_pitch_track Pipeline.song0 0.05) with
     | Return t1 =>
         Pipeline.create_bass_line_MIDI_file t1
         = ([Print "Creating the MIDI file."],
            Raise (AttributeError
              "'BassLineTranscriber' object has no attribute 'pitch_track_quantized'"))
     | Raise _ => True
     end.
Proof.
  apply (stages_out_of_order
           Pipeline.os_path_basename Pipeline.os_path_splitext
           Pipeline.read_scale_frequencies Pipeline.get_track_scale
           Pipeline.get_chorus_beat_positions Pipeline.get_quarter_beat_positions
           Pipeline.np_load Pipeline.pYIN_F0
           RegionQuantizer.adaptive_voiced_region_quantization
           RegionQuantizer.uniform_voiced_region_quantization
           Pipeline.getitem1 Pipeline.frequency_to_midi_sequence
           Pipeline.midi_sequence_to_midi_array
           "data/bass/song.npy" 120 "A min" (M_seq [1; 2]) 4 64 0
           Pipeline.song0 false 2 "uniform" 0.05).
  - vm_compute. reflexivity.
  - right. reflexivity.
Defined.

Lemma stages_in_order_witness :
  exists t2,
    result (let* t1 := Pipeline.extract_pitch_track Pipeline.song0 0.05 in
            let* t2 := Pipeline.quantize_pitch_track t1 false 2 "adaptive" in
            do* Pipeline.create_bass_line_MIDI_file t2 in
            ret t2) = Return t2
    /\ F0_estimate t2 = Some Pipeline.example_track
    /\ pitch_track t2 = Some Pipeline.example_track
    /\ pitch_track_quantized t2
       = Some (if bool_decide ("adaptive" = "adaptive")
               then RegionQuantizer.adaptive_voiced_region_quantization
                      Pipeline.example_track (track_scale Pipeline.song0)
                      (quarter_beat_positions Pipeline.song0) false
                      (frame_factor Pipeline.song0) 2
               else RegionQuantizer.uniform_voiced_region_quantization
                      Pipeline.example_track (track_scale Pipeline.song0) 2)
    /\ length (List.filter is_Create_MIDI_file
                 (trace (let* t1 := Pipeline.extract_pitch_track Pipeline.song0 0.05 in
                         let* t2 := Pipeline.quantize_pitch_track t1 false 2
                                      "adaptive" in
                         do* Pipeline.create_bass_line_MIDI_file t2 in
                         ret t2)))
       = length (decimation_rates (M_seq [1; 2])).
Proof.
  apply (stages_in_order
           Pipeline.os_path_basename Pipeline.os_path_splitext
           Pipeline.read_scale_frequencies Pipeline.get_track_scale
           Pipeline.get_chorus_beat_positions Pipeline.get_quarter_beat_positions
           Pipeline.np_load Pipeline.pYIN_F0
           RegionQuantizer.adaptive_voiced_region_quantization
           RegionQuantizer.uniform_voiced_region_quantization
           Pipeline.getitem1 Pipeline.frequency_to_midi_sequence
           Pipeline.midi_sequence_to_midi_array
           "data/bass/song.npy" 120 "A min" (M_seq [1; 2]) 4 64 0
           Pipeline.song0 0.05 Pipeline.example_track Pipeline.example_track
           false 2 "adaptive").
  - vm_compute. reflexivity.
  - reflexivity.
  - left. reflexivity.
Defined.

Lemma output_directories_witness :
  NoDup [F0_estimate_dir Pipeline.song0; pitch_track_dir Pipeline.song0;
         quantized_pitch_track_dir Pipeline.song0; midi_dir Pipeline.song0]
  /\ (forall m : Z,
        os_path_join (midi_dir Pipeline.song0) (str m)
        = midi_dir Pipeline.song0 +:+ "/" +:+ str m)
  /\ (output_dir Pipeline.song0 <> "" ->
      endswith_slash (output_dir Pipeline.song0) = false ->
      F0_estimate_dir Pipeline.song0
      = output_dir Pipeline.song0 +:+ "/F0_estimate"
      /\ pitch_track_dir Pipeline.song0
         = output_dir Pipeline.song0 +:+ "/pitch_track"
      /\ quantized_pitch_track_dir Pipeline.song0
         = output_dir Pipeline.song0 +:+ "/quantized_pitch_track"
      /\ midi_dir Pipeline.song0 = output_dir Pipeline.song0 +:+ "/midi").
Proof.
  apply (output_directories (midi_array := list (Z * Z * Z))
           Pipeline.os_path_basename Pipeline.os_path_splitext
           Pipeline.read_scale_frequencies Pipeline.get_track_scale
           Pipeline.get_chorus_beat_positions Pipeline.get_quarter_beat_positions
           Pipeline.np_load
           "data/bass/song.npy" 120 "A min" (M_seq [1; 2]) 4 64 0
           Pipeline.song0).
  vm_compute. reflexivity.
Defined.

Lemma exports_follow_stages_witness :
  exists t1 t2 q,
    result (Pipeline.extract_pitch_track Pipeline.song0 0.05) = Return t1
    /\ result (Pipeline.quantize_pitch_track t1 false 2 "uniform") = Return t2
    /\ pitch_track_quantized t2 = Some q
    /\ Exports.export_F0_estimate t1
       = ([Exports.Print "Exporting the F0 estimate.";
           Exports.Export_function (Exports.F0_array Pipeline.example_track)
             (F0_estimate_dir Pipeline.song0) (title Pipeline.song0)],
          Return tt)
    /\ Exports.export_pitch_track t1
       = ([Exports.Export_function (Exports.F0_array Pipeline.example_track)
             (pitch_track_dir Pipeline.song0) (title Pipeline.song0)],
          Return tt)
    /\ Exports.export_quantized_pitch_track t1
       = ([], Raise (AttributeError
            "'BassLineTranscriber' object has no attribute 'pitch_track_quantized'"))
    /\ Exports.export_quantized_pitch_track t2
       = ([Exports.Export_function (Exports.Quantized_array q)
             (quantized_pitch_track_dir Pipeline.song0) (title Pipeline.song0)],
          Return tt).
Proof.
  apply (exports_follow_stages Pipeline.pYIN_F0
           RegionQuantizer.adaptive_voiced_region_quantization
           RegionQuantizer.uniform_voiced_region_quantization
           Pipeline.song0 0.05 Pipeline.example_track Pipeline.example_track
           false 2 "uniform").
  - reflexivity.
  - reflexivity.
  - right. reflexivity.
Defined.

End SongFacts.

(** * The further properties on a batch *)

Section SessionFacts.
Import Py Extractor BasslineExtraction Main.



Lemma in_session_dirs (x : string) (base : gset string) :
  x = "" \/ x = "out/exceptions" -> dirs Session.world0 ⊆ base -> x ∈ base.
Proof.
  intros Hx Hsub. apply Hsub.
  change (x ∈ ({[ ""; "out/exceptions" ]} : gset string)).
  rewrite elem_of_union, !elem_of_singleton. exact Hx.
Qed.


Lemma main_loop_stops_on_interrupt_witness :
  cfor_each (["intro"] ++ "stop" :: ["outro"])
    (Session.process_title Batch.directories tt "2021-05-01_12-00-00" tt
       "TechHouse_track_dicts.json") Session.world0
  = (Raise SystemExit,
     mk_world [nl +:+ "intro"; nl +:+ "stop"] (dirs Session.world0)
       {[ "Completed_2021-05-01_12-00-00_TechHouse_track_dicts.txt" :=
            "intro" +:+ nl ]}).
Proof.
  apply (main_loop_stops_on_interrupt
           Batch.format_exception Session.BasslineExtractor
           (fun _ => tt) (fun _ _ => cret tt) (fun _ => cret tt)
           (fun _ _ _ => cret tt) (fun _ => cret tt) (fun _ => cret tt)
           (fun _ => cret tt) (fun _ => cret tt)
           Batch.directories tt "2021-05-01_12-00-00" tt
           "TechHouse_track_dicts.json" ["intro"] ["outro"] "stop"
           Session.world0
           (mk_world [nl +:+ "intro"] (dirs Session.world0)
              {[ "Completed_2021-05-01_12-00-00_TechHouse_track_dicts.txt" :=
                   "intro" +:+ nl ]})
           _ KeyboardInterrupt).
  - vm_compute. reflexivity.
  - reflexivity.
  - reflexivity.
Defined.

Lemma separate_loop_stops_at_first_exception_witness :
  cfor_each (["intro"] ++ "broken" :: ["outro"])
    (Session.separate_title Batch.directories tt tt) Session.world0
  = (Raise (KeyError "BPM"),
     mk_world [nl +:+ "intro"; nl +:+ "broken"] (dirs Session.world0) ∅).
Proof.
  apply (separate_loop_stops_at_first_exception
           Session.SimpleExtractor (fun _ => cret tt)
           Batch.directories tt tt ["intro"] ["outro"] "broken"
           Session.world0
           (mk_world [nl +:+ "intro"] (dirs Session.world0) ∅)
           _ (KeyError "BPM")).
  - reflexivity.
  - reflexivity.
Defined.

(** In the session every extraction returns and leaves the completed file
    alone: the broken track is logged, the others do nothing. *)
Lemma session_extraction_returns (title : string) (w : world) :
  title ∈ slice_from 1 Session.titles ->
  dirs Session.world0 ⊆ dirs w ->
  exists w',
    Session.extract_single_bassline title Batch.directories tt
      "2021-05-01_12-00-00" tt 44100 4 w = (Return tt, w')
    /\ dirs Session.world0 ⊆ dirs w'
    /\ files w' !! completed_file "2021-05-01_12-00-00"
                     "TechHouse_track_dicts.json"
       = files w !! completed_file "2021-05-01_12-00-00"
                      "TechHouse_track_dicts.json".
Proof.
  intros Hin Hsub.
  change (title ∈ ["broken"; "outro"]) in Hin.
  rewrite !elem_of_cons, elem_of_nil in Hin.
  destruct Hin as [-> | [-> | []]].
  - unfold Session.extract_single_bassline, Main.extract_single_bassline,
      BasslineExtraction.extract_single_bassline, try_except.
    change (extraction_body unit unit unit unit unit Session.BasslineExtractor
              (fun _ => tt) (fun _ _ => cret tt) (fun _ => cret tt)
              (fun _ _ _ => cret tt) (fun _ => cret tt) (fun _ => cret tt)
              (fun _ => cret tt) (fun _ => cret tt)
              "broken" Batch.directories tt tt 44100 4 w)
      with (Raise (A := unit) (KeyError "BPM"), w).
    cbn beta iota.
    destruct (handler_logs Batch.format_exception Batch.directories
                "2021-05-01_12-00-00" "broken" (KeyError "BPM") w
                eq_refl eq_refl) as [msg ->].
    rewrite (exception_logger_Return Batch.format_exception Batch.directories
               (KeyError "BPM") "2021-05-01_12-00-00" "broken"
               (text_id_of (KeyError "BPM"))
               (mk_world (stdout w ++ [msg]) (dirs w) (files w))
               {[ "exceptions" := "out/exceptions" ]} "out/exceptions"
               eq_refl eq_refl).
    + eexists. split; [reflexivity|]. split; [exact Hsub|].
      cbn [files]. apply lookup_insert_ne. discriminate.
    + apply (in_session_dirs "out/exceptions"); [right; reflexivity|exact Hsub].
  - exists w. split; [reflexivity|]. split; [exact Hsub | reflexivity].
Qed.

Lemma main_records_titles_witness :
  exists w' elapsed,
    Session.main "music" "TechHouse_track_dicts.json" 1 Session.world0
    = (Return tt, w')
    /\ default ""
         (files w' !! completed_file "2021-05-01_12-00-00"
                        "TechHouse_track_dicts.json")
       = default ""
           (files Session.world0
              !! completed_file "2021-05-01_12-00-00"
                   "TechHouse_track_dicts.json")
         +:+ String.concat ""
               (map (fun t => t +:+ nl) (slice_from 1 Session.titles))
    /\ last (stdout w') = Some ("Total Run: " +:+ elapsed).
Proof.
  apply (main_records_titles
           Batch.format_exception Session.BasslineExtractor
           (fun _ => tt) (fun _ _ => cret tt) (fun _ => cret tt)
           (fun _ _ _ => cret tt) (fun _ => cret tt) (fun _ => cret tt)
           (fun _ => cret tt) (fun _ => cret tt)
           Session.strftime Session.time_time Session.strftime_gmtime
           Session.get_directories Session.init_folders Session.read_metadata
           Session.load_pretrained
           "music" "TechHouse_track_dicts.json" 1
           Session.world0 Session.world0 Session.world0 Session.world0
           Batch.directories tt Session.titles "2021-05-01_12-00-00" tt 0%Q).
  - reflexivity.
  - reflexivity.
  - reflexivity.
  - intros w. exists 0%Q. reflexivity.
  - apply (in_session_dirs ""); [left|]; reflexivity.
  - exact session_extraction_returns.
Defined.

End SessionFacts.
